(** * pymatgen.util.plotting: a shallow embedding and its properties

    The module is glue around matplotlib: every function computes a few
    numbers and then calls into the plotting library.  The embedding keeps
    both halves:

    - Python values are the inductive [pyval]; floats are IEEE binary64
      ([PrimFloat]), integers are [Z], dictionaries are [gmap string pyval];
    - a function is a computation in the monad [M]: it produces the list of
      library calls it made, in order, and either a value or the exception
      that stopped it.  What the library does on a call is not part of the
      source: the parameter [lib_raises] says which calls raise. *)

From Stdlib Require Import ZArith Floats List Sorted.
From stdpp Require Import gmap strings list sorting.

Open Scope Z_scope.

Set Warnings "-register-all,-inexact-float".

(** ** Python values *)

Inductive pynum :=
| PyInt (z : Z)
| PyFloat (f : float).

Inductive pyval :=
| PyNone
| PyBool (b : bool)
| PyNum (n : pynum)
| PyStr (s : string)
| PyDict (d : gmap string pyval)
| PyFig (id : nat).

Inductive exn :=
| KeyError (key : string)
| AttributeError (attr : string)
| IndexError
| OverflowError
| ValueError
| ExternalError (msg : string).

(** [bool(x)]: None, False, zero, the empty string and the empty dict are
    falsy; [nan] is truthy and [-0.0] is falsy, as [==] on floats has it. *)
Definition num_truthy (n : pynum) : bool :=
  match n with
  | PyInt z => negb (z =? 0)
  | PyFloat f => negb (PrimFloat.eqb f 0%float)
  end.

Definition py_truthy (v : pyval) : bool :=
  match v with
  | PyNone => false
  | PyBool b => b
  | PyNum n => num_truthy n
  | PyStr s => negb (String.eqb s "")
  | PyDict d => negb (bool_decide (d = ∅))
  | PyFig _ => true
  end.

Definition is_None (v : pyval) : bool :=
  match v with PyNone => true | _ => false end.

(** ** Numbers *)

(** [float(z)] for an int: round to nearest, ties to even; an int beyond the
    float range raises OverflowError. *)
Definition float_of_int (z : Z) : exn + float :=
  let f := SF2Prim (binary_normalize prec emax z 0 false) in
  if PrimFloat.is_infinity f then inl OverflowError else inr f.

(** [int(f)] for a float: truncation toward zero; OverflowError on an
    infinity and ValueError on nan. *)
Definition int_of_float (f : float) : exn + Z :=
  match Prim2SF f with
  | S754_zero _ => inr 0
  | S754_finite s m e =>
      let a := match e with
               | Z0 => Zpos m
               | Zpos p => Z.shiftl (Zpos m) (Zpos p)
               | Zneg p => Z.shiftr (Zpos m) (Zpos p)
               end in
      inr (if s then - a else a)
  | S754_infinity _ => inl OverflowError
  | S754_nan => inl ValueError
  end.

(** [n * c] for a float constant [c]: an int operand is converted first. *)
Definition mul_float (n : pynum) (c : float) : exn + float :=
  match n with
  | PyInt z =>
      match float_of_int z with
      | inl e => inl e
      | inr f => inr (f * c)%float
      end
  | PyFloat f => inr (f * c)%float
  end.

(** [n * k] for an int constant [k]: int times int stays an int. *)
Definition mul_int (n : pynum) (k : Z) : exn + pynum :=
  match n with
  | PyInt z => inr (PyInt (z * k))
  | PyFloat f =>
      match float_of_int k with
      | inl e => inl e
      | inr c => inr (PyFloat (f * c)%float)
      end
  end.

(** [int(n)] *)
Definition py_int (n : pynum) : exn + Z :=
  match n with
  | PyInt z => inr z
  | PyFloat f => int_of_float f
  end.

(** [(math.sqrt(5) - 1.0) / 2.0] *)
Definition golden_ratio : float := ((PrimFloat.sqrt 5 - 1.0) / 2.0)%float.

(** ** Arrays of Axes *)

(** What [np.array(ax_array)] is: a shape and the Axes in row-major order. *)
Record axes_array := { nd_shape : list nat; nd_data : list nat }.

(** [a.ravel()]: the same elements as a one-dimensional array. *)
Definition ravel (a : axes_array) : list nat := nd_data a.

(** [l[i]] on a one-dimensional array, for an index that is not negative. *)
Definition index (l : list nat) (i : nat) : exn + nat :=
  match l !! i with
  | Some x => inr x
  | None => inl IndexError
  end.

(** What [get_axarray_fig_plt] hands back as its first component. *)
Inductive ax_result :=
| AxSubplots
| AxGiven (a : axes_array)
| AxRavel (l : list nat)
| AxItem (ax : nat).

(** ** Library calls *)

(** The pyplot module a call goes to: the one the function imports itself,
    or the object the caller passed as [plt]. *)
Inductive plt_ref :=
| ImportedPyplot
| SuppliedPlt (h : nat).

(** A figure: an object a wrapped function returned, or what a pyplot's
    [gcf()] / [subplots()] gave. *)
Inductive fig_ref :=
| FigObj (id : nat)
| GcfOf (p : plt_ref)
| SubplotsFig.

Inductive call :=
| Import (module : string)
| Import_module (name : string)
| Get_mpl_colors (attr : string)
| Cycler_color (color_cycle : string * string)
| Plt_figure (p : plt_ref) (figsize : pynum * pyval) (facecolor : string)
    (dpi : pyval)
| Plt_gca (p : plt_ref)
| Ax_set_prop_cycle (p : plt_ref) (color_cycle : string * string)
| Plt_gcf (p : plt_ref)
| Fig_set_size_inches (f : fig_ref) (w h : pyval) (kw : gmap string pyval)
| Plt_xticks (p : plt_ref) (fontsize : Z)
| Plt_yticks (p : plt_ref) (fontsize : Z)
| Ax_get_title (p : plt_ref)
| Ax_set_title (p : plt_ref) (size : pynum)
| Ax_get_xlabel (p : plt_ref)
| Ax_set_xlabel (p : plt_ref) (size : Z)
| Ax_get_ylabel (p : plt_ref)
| Ax_set_ylabel (p : plt_ref) (size : Z)
| Plt_subplots (nrows ncols : pyval) (sharex sharey squeeze : pyval)
    (subplot_kw gridspec_kw : pyval) (fig_kw : gmap string pyval)
| Fig_suptitle (f : fig_ref) (title : pyval)
| Fig_savefig (f : fig_ref) (path : pyval)
| Fig_tight_layout (f : fig_ref)
| Plt_show (p : plt_ref).

(** ** Computations: a trace of calls and an outcome *)

Definition M (A : Type) : Type := (list call * (exn + A))%type.

Definition ret {A} (a : A) : M A := ([], inr a).

Definition bind {A B} (m : M A) (k : A → M B) : M B :=
  match m with
  | (t, inl e) => (t, inl e)
  | (t, inr a) => let '(t', r) := k a in (t ++ t', r)
  end.

Definition lift {A} (r : exn + A) : M A := ([], r).

Declare Scope py_scope.
Delimit Scope py_scope with py.
Notation "x <- m ;; k" := (bind m (fun x => k))
  (at level 100, m at next level, right associativity) : py_scope.
Notation "m ;;; k" := (bind m (fun _ => k))
  (at level 100, right associativity) : py_scope.
Open Scope py_scope.

Definition trace {A} (m : M A) : list call := fst m.
Definition outcome {A} (m : M A) : exn + A := snd m.

Definition returns {A} (m : M A) : Prop := ∃ a, outcome m = inr a.

(** ** The functions of the module *)

Section Plotting.

(** Which library calls raise, and what. *)
Variable lib_raises : call → option exn.

Definition do (c : call) : M unit :=
  ([c], match lib_raises c with Some e => inl e | None => inr () end).

(** *** add_fig_kwargs *)

(** [kwargs.pop(k, dflt)]: the value; the key is deleted next to it. *)
Definition kwargs_get (kwargs : gmap string pyval) (k : string)
    (dflt : pyval) : pyval :=
  default dflt (kwargs !! k).

(** [v.pop]: only a dict has the method. *)
Definition dict_of (v : pyval) : exn + gmap string pyval :=
  match v with
  | PyDict d => inr d
  | _ => inl (AttributeError "pop")
  end.

(** [d.pop(k)] with no default: the value and the dict without the key;
    KeyError on a missing key. *)
Definition dict_pop (d : gmap string pyval) (k : string)
    : exn + (pyval * gmap string pyval) :=
  match d !! k with
  | Some x => inr (x, delete k d)
  | None => inl (KeyError k)
  end.

(** [fig.attr]: only a figure has the methods the wrapper calls. *)
Definition fig_attr (fig : pyval) (attr : string) : exn + fig_ref :=
  match fig with
  | PyFig id => inr (FigObj id)
  | _ => inl (AttributeError attr)
  end.

Section Wrapper.

(** The decorated function: positional and keyword arguments in, calls
    and a value (or an exception) out. *)
Variable func : list pyval → gmap string pyval → M pyval.

Definition wrapper (args : list pyval) (kwargs : gmap string pyval)
    : M pyval :=
  (* pop the kwds used by the decorator. *)
  let title := kwargs_get kwargs "title" PyNone in
  let kwargs := delete "title" kwargs in
  let size_kwargs := kwargs_get kwargs "size_kwargs" PyNone in
  let kwargs := delete "size_kwargs" kwargs in
  let show := kwargs_get kwargs "show" (PyBool true) in
  let kwargs := delete "show" kwargs in
  let savefig := kwargs_get kwargs "savefig" PyNone in
  let kwargs := delete "savefig" kwargs in
  let tight_layout := kwargs_get kwargs "tight_layout" (PyBool false) in
  let kwargs := delete "tight_layout" kwargs in
  (* Call func and return immediately if None is returned. *)
  fig <- func args kwargs ;;
  if is_None fig then ret fig else
  (* Operate on matplotlib figure. *)
  (if negb (is_None title) then
     f <- lift (fig_attr fig "suptitle") ;;
     do (Fig_suptitle f title)
   else ret ()) ;;;
  (if negb (is_None size_kwargs) then
     f <- lift (fig_attr fig "set_size_inches") ;;
     d <- lift (dict_of size_kwargs) ;;
     wd <- lift (dict_pop d "w") ;;
     hd <- lift (dict_pop (snd wd) "h") ;;
     do (Fig_set_size_inches f (fst wd) (fst hd) (snd hd))
   else ret ()) ;;;
  (if py_truthy savefig then
     f <- lift (fig_attr fig "savefig") ;;
     do (Fig_savefig f savefig)
   else ret ()) ;;;
  (if py_truthy tight_layout then
     f <- lift (fig_attr fig "tight_layout") ;;
     do (Fig_tight_layout f)
   else ret ()) ;;;
  (if py_truthy show then
     do (Import "matplotlib.pyplot") ;;;
     do (Plt_show ImportedPyplot)
   else ret ()) ;;;
  ret fig.

End Wrapper.

(** *** pretty_plot *)

Definition pretty_plot (width : pynum) (height : pyval) (plt : option nat)
    (dpi : pyval) (color_cycle : string * string) : M plt_ref :=
  x <- lift (mul_float width 2.5) ;;
  ticksize <- lift (int_of_float x) ;;
  height <- (if negb (py_truthy height) then
               y <- lift (mul_float width golden_ratio) ;;
               h <- lift (int_of_float y) ;;
               ret (PyNum (PyInt h))
             else ret height) ;;
  plt <- match plt with
         | None =>
             do (Import "matplotlib.pyplot") ;;;
             do (Import "importlib") ;;;
             do (Import_module
                   ("palettable.colorbrewer." +:+ fst color_cycle)) ;;;
             do (Get_mpl_colors (snd color_cycle)) ;;;
             do (Import "cycler") ;;;
             do (Plt_figure ImportedPyplot (width, height) "w" dpi) ;;;
             do (Plt_gca ImportedPyplot) ;;;
             do (Cycler_color color_cycle) ;;;
             do (Ax_set_prop_cycle ImportedPyplot color_cycle) ;;;
             ret ImportedPyplot
         | Some h =>
             do (Plt_gcf (SuppliedPlt h)) ;;;
             do (Fig_set_size_inches (GcfOf (SuppliedPlt h))
                   (PyNum width) height ∅) ;;;
             ret (SuppliedPlt h)
         end ;;
  do (Plt_xticks plt ticksize) ;;;
  do (Plt_yticks plt ticksize) ;;;
  do (Plt_gca plt) ;;;
  do (Ax_get_title plt) ;;;
  title_size <- lift (mul_int width 4) ;;
  do (Ax_set_title plt title_size) ;;;
  z <- lift (mul_int width 3) ;;
  labelsize <- lift (py_int z) ;;
  do (Ax_get_xlabel plt) ;;;
  do (Ax_set_xlabel plt labelsize) ;;;
  do (Ax_get_ylabel plt) ;;;
  do (Ax_set_ylabel plt labelsize) ;;;
  ret plt.

(** *** get_axarray_fig_plt *)

Definition get_axarray_fig_plt (ax_array : option axes_array)
    (nrows ncols sharex sharey squeeze subplot_kw gridspec_kw : pyval)
    (fig_kw : gmap string pyval) : M (ax_result * fig_ref * plt_ref) :=
  do (Import "matplotlib.pyplot") ;;;
  match ax_array with
  | None =>
      do (Plt_subplots nrows ncols sharex sharey squeeze subplot_kw
            gridspec_kw fig_kw) ;;;
      ret (AxSubplots, SubplotsFig, ImportedPyplot)
  | Some a =>
      do (Plt_gcf ImportedPyplot) ;;;
      if py_truthy squeeze then
        let r := ravel a in
        if (length r =? 1)%nat then
          x <- lift (index r 1) ;;
          ret (AxItem x, GcfOf ImportedPyplot, ImportedPyplot)
        else ret (AxRavel r, GcfOf ImportedPyplot, ImportedPyplot)
      else ret (AxGiven a, GcfOf ImportedPyplot, ImportedPyplot)
  end.

End Plotting.

(** ** Vocabulary of the statements *)

(** A library that never raises. *)
Definition no_raise : call → option exn := fun _ => None.

(** Two functions to decorate: one makes a call and returns a figure, the
    other returns None. *)
Definition plot_func : list pyval → gmap string pyval → M pyval :=
  fun _ _ => ([Plt_gcf ImportedPyplot], inr (PyFig 0)).

Definition none_func : list pyval → gmap string pyval → M pyval :=
  fun _ _ => ([Plt_gcf ImportedPyplot], inr PyNone).

(** A function to decorate that shows what it was called with: it passes
    the keyword arguments it received to plt.subplots and returns None. *)
Definition echo_func : list pyval → gmap string pyval → M pyval :=
  fun _ kwargs =>
    ([Plt_subplots PyNone PyNone PyNone PyNone PyNone PyNone PyNone kwargs],
     inr PyNone).

(** The keyword arguments the wrapper leaves to the wrapped function. *)
Definition func_kwargs (kwargs : gmap string pyval) : gmap string pyval :=
  delete "tight_layout"
    (delete "savefig"
       (delete "show" (delete "size_kwargs" (delete "title" kwargs)))).

(** The five options as the wrapper reads them, defaults included. *)
Definition opt_title (kwargs : gmap string pyval) : pyval :=
  kwargs_get kwargs "title" PyNone.
Definition opt_size_kwargs (kwargs : gmap string pyval) : pyval :=
  kwargs_get kwargs "size_kwargs" PyNone.
Definition opt_show (kwargs : gmap string pyval) : pyval :=
  kwargs_get kwargs "show" (PyBool true).
Definition opt_savefig (kwargs : gmap string pyval) : pyval :=
  kwargs_get kwargs "savefig" PyNone.
Definition opt_tight_layout (kwargs : gmap string pyval) : pyval :=
  kwargs_get kwargs "tight_layout" (PyBool false).

Definition is_show (c : call) : bool :=
  match c with Plt_show _ => true | _ => false end.

Definition is_savefig (c : call) : bool :=
  match c with Fig_savefig _ _ => true | _ => false end.

Definition is_figure (c : call) : bool :=
  match c with Plt_figure _ _ _ _ => true | _ => false end.

Definition count (P : call → bool) (t : list call) : nat :=
  length (List.filter P t).

(** The post-processing actions of the wrapper, in the order of the
    constructors. *)
Inductive action := SetTitle | Resize | Save | TightLayout | Show.

Definition action_rank (a : action) : nat :=
  match a with
  | SetTitle => 0
  | Resize => 1
  | Save => 2
  | TightLayout => 3
  | Show => 4
  end.

Definition action_of (c : call) : option action :=
  match c with
  | Fig_suptitle _ _ => Some SetTitle
  | Fig_set_size_inches _ _ _ _ => Some Resize
  | Fig_savefig _ _ => Some Save
  | Fig_tight_layout _ => Some TightLayout
  | Plt_show _ => Some Show
  | _ => None
  end.

Definition all_actions : list action :=
  [SetTitle; Resize; Save; TightLayout; Show].

(** The actions a trace applies, in the order it applies them. *)
Definition actions (t : list call) : list action := omap action_of t.

(** When the wrapper takes an option as set: title and size_kwargs by
    [is not None], the other three by truth value. *)
Definition enabled (kwargs : gmap string pyval) (a : action) : bool :=
  match a with
  | SetTitle => negb (is_None (opt_title kwargs))
  | Resize => negb (is_None (opt_size_kwargs kwargs))
  | Save => py_truthy (opt_savefig kwargs)
  | TightLayout => py_truthy (opt_tight_layout kwargs)
  | Show => py_truthy (opt_show kwargs)
  end.

(** The figure a call is made on, for the calls on a figure. *)
Definition call_fig (c : call) : option fig_ref :=
  match c with
  | Fig_suptitle f _ | Fig_set_size_inches f _ _ _ | Fig_savefig f _
  | Fig_tight_layout f => Some f
  | _ => None
  end.

(** The calls of a run of the wrapper that nothing interrupts, after those
    of the wrapped function.  (A size_kwargs that is no dict, or lacks "w" or
    "h", interrupts the run before its resize call; the entry below then
    stands for a call that is never made.) *)
Definition resize_calls (id : nat) (size_kwargs : pyval) : list call :=
  match size_kwargs with
  | PyNone => []
  | PyDict d =>
      [Fig_set_size_inches (FigObj id) (default PyNone (d !! "w"))
         (default PyNone (d !! "h")) (delete "h" (delete "w" d))]
  | _ => [Fig_set_size_inches (FigObj id) PyNone PyNone ∅]
  end.

Definition plan (id : nat) (kwargs : gmap string pyval) : list call :=
  (if negb (is_None (opt_title kwargs))
   then [Fig_suptitle (FigObj id) (opt_title kwargs)] else []) ++
  resize_calls id (opt_size_kwargs kwargs) ++
  (if py_truthy (opt_savefig kwargs)
   then [Fig_savefig (FigObj id) (opt_savefig kwargs)] else []) ++
  (if py_truthy (opt_tight_layout kwargs)
   then [Fig_tight_layout (FigObj id)] else []) ++
  (if py_truthy (opt_show kwargs)
   then [Import "matplotlib.pyplot"; Plt_show ImportedPyplot] else []) ++
  [].

(** The default of pretty_plot's color_cycle argument. *)
Definition default_color_cycle : string * string := ("qualitative", "Set1_9").

(** One Axes, as a one-element array. *)
Definition single_axes : axes_array :=
  {| nd_shape := [1%nat]; nd_data := [0%nat] |}.

(** The pyplot module pretty_plot works on and returns. *)
Definition plt_of (plt : option nat) : plt_ref :=
  match plt with
  | None => ImportedPyplot
  | Some h => SuppliedPlt h
  end.

(** The calls pretty_plot makes before the font sizes are set: a new figure
    with its color cycle, or the resize of the current figure of [plt]. *)
Definition setup_calls (width : pynum) (height : pyval) (plt : option nat)
    (dpi : pyval) (color_cycle : string * string) : list call :=
  match plt with
  | None =>
      [Import "matplotlib.pyplot"; Import "importlib";
       Import_module ("palettable.colorbrewer." +:+ fst color_cycle);
       Get_mpl_colors (snd color_cycle); Import "cycler";
       Plt_figure ImportedPyplot (width, height) "w" dpi;
       Plt_gca ImportedPyplot; Cycler_color color_cycle;
       Ax_set_prop_cycle ImportedPyplot color_cycle]
  | Some h =>
      [Plt_gcf (SuppliedPlt h);
       Fig_set_size_inches (GcfOf (SuppliedPlt h)) (PyNum width) height ∅]
  end.

(** The calls that set the font sizes. *)
Definition font_calls (p : plt_ref) (ticksize : Z) (title_size : pynum)
    (labelsize : Z) : list call :=
  [Plt_xticks p ticksize; Plt_yticks p ticksize; Plt_gca p; Ax_get_title p;
   Ax_set_title p title_size; Ax_get_xlabel p; Ax_set_xlabel p labelsize;
   Ax_get_ylabel p; Ax_set_ylabel p labelsize].

(** [int(n * c)], the way pretty_plot computes its integer sizes. *)
Definition int_mul_float (n : pynum) (c : float) : exn + Z :=
  match mul_float n c with
  | inl e => inl e
  | inr x => int_of_float x
  end.

(** Rounding to the nearest integer, ties to even: what [round] means in
    the description of the default height.  pretty_plot does not use it. *)
Definition round_of_float (f : float) : exn + Z :=
  match Prim2SF f with
  | S754_zero _ => inr 0
  | S754_finite s m e =>
      let a := match e with
               | Z0 => Zpos m
               | Zpos p => Z.shiftl (Zpos m) (Zpos p)
               | Zneg p =>
                   let d := Z.shiftl 1 (Zpos p) in
                   let q := Zpos m / d in
                   let r := Zpos m mod d in
                   match 2 * r ?= d with
                   | Lt => q
                   | Gt => q + 1
                   | Eq => if Z.even q then q else q + 1
                   end
               end in
      inr (if s then - a else a)
  | S754_infinity _ => inl OverflowError
  | S754_nan => inl ValueError
  end.

Definition round_mul_float (n : pynum) (c : float) : exn + Z :=
  match mul_float n c with
  | inl e => inl e
  | inr x => round_of_float x
  end.

(** The default height over the exact golden ratio, for a width that is a
    natural number: the integer part of [w * (sqrt 5 - 1) / 2]. *)
Definition exact_default_height (w : Z) : Z := (Z.sqrt (5 * w * w) - w) / 2.

(** The checks behind the statements on integer widths: the float
    computation agrees with the exact one on every width of a range. *)
Definition height_agrees (w : Z) : bool :=
  match int_mul_float (PyInt w) golden_ratio with
  | inr h => h =? exact_default_height w
  | inl _ => false
  end.

Definition ticksize_agrees (w : Z) : bool :=
  match int_mul_float (PyInt w) 2.5 with
  | inr t => t =? Z.quot (5 * w) 2
  | inl _ => false
  end.

Definition is_xticks (c : call) : bool :=
  match c with Plt_xticks _ _ => true | _ => false end.

(** What a size_kwargs must be for the resize step to go through. *)
Definition resize_ok (size_kwargs : pyval) : Prop :=
  match size_kwargs with
  | PyNone => True
  | PyDict d => is_Some (d !! "w") ∧ is_Some (d !! "h")
  | _ => False
  end.

(** [follows m p Q]: the calls of [m] are an initial part of [p], and all of
    [p] with [Q] of the value when [m] returns. *)
Definition follows {A} (m : M A) (p : list call) (Q : A → Prop) : Prop :=
  trace m `prefix_of` p ∧ ∀ a, outcome m = inr a → trace m = p ∧ Q a.

(** ** The other helpers of the module *)

(** *** get_ax_fig_plt and get_ax3d_fig_plt *)

(** The calls of the two helpers.  [plt.figure()] is called with no
    argument, and the Axes is made on the figure that call returned. *)
Inductive ax_call :=
| Ax_import (module : string)
| Ax_plt_figure
| Ax_add_subplot (nrows ncols index : Z)
| Ax_Axes3D
| Ax_plt_gcf.

(** The Axes a helper returns: the one it was given, or the one it made. *)
Inductive axes_ref :=
| GivenAxes (ax : pyval)
| NewSubplot
| NewAxes3D.

(** The figure a helper returns: the one [plt.figure()] made, or the one
    [plt.gcf()] gave. *)
Inductive figure_ref :=
| NewFigure
| CurrentFigure.

Definition MA (A : Type) : Type := (list ax_call * (exn + A))%type.

Section AxesHelpers.

(** Which of the helpers' calls raise, and what. *)
Variable ax_raises : ax_call → option exn.

(** A call, and the rest of the run if the call does not raise. *)
Definition ax_do {A} (c : ax_call) (k : MA A) : MA A :=
  match ax_raises c with
  | Some e => ([c], inl e)
  | None => let '(t, r) := k in (c :: t, r)
  end.

Definition get_ax_fig_plt (ax : pyval)
    : MA (axes_ref * figure_ref * plt_ref) :=
  ax_do (Ax_import "matplotlib.pyplot")
    (if is_None ax then
       ax_do Ax_plt_figure
         (ax_do (Ax_add_subplot 1 1 1)
            ([], inr (NewSubplot, NewFigure, ImportedPyplot)))
     else
       ax_do Ax_plt_gcf
         ([], inr (GivenAxes ax, CurrentFigure, ImportedPyplot))).

Definition get_ax3d_fig_plt (ax : pyval)
    : MA (axes_ref * figure_ref * plt_ref) :=
  ax_do (Ax_import "matplotlib.pyplot")
    (ax_do (Ax_import "mpl_toolkits.mplot3d")
       (if is_None ax then
          ax_do Ax_plt_figure
            (ax_do Ax_Axes3D
               ([], inr (NewAxes3D, NewFigure, ImportedPyplot)))
        else
          ax_do Ax_plt_gcf
            ([], inr (GivenAxes ax, CurrentFigure, ImportedPyplot)))).

End AxesHelpers.

(** *** The docstring of a decorated function *)

(** [s]: a newline and the table of the keyword arguments. *)
Definition options_doc : string := "
    keyword arguments controlling the display of the figure:

    ================  ====================================================
    kwargs            Meaning
    ================  ====================================================
    title             Title of the plot (Default: None).
    show              True to show the figure (default: True).
    savefig           'abc.png' or 'abc.eps' to save the figure to a file.
    size_kwargs       Dictionary with options passed to fig.set_size_inches
                      example: size_kwargs=dict(w=3, h=4)
    tight_layout      True if to call fig.tight_layout (default: False)
    ================  ====================================================".

Definition newline : string := "
".

(** [wrapper.__doc__] after add_fig_kwargs, from the docstring of the
    wrapped function (which functools.wraps copies to the wrapper). *)
Definition decorated_doc (doc : option string) : string :=
  match doc with
  | Some d => d +:+ newline +:+ options_doc
  | None => options_doc
  end.

(** ** Vocabulary of the further statements *)

(** [mentions k s]: the text [k] occurs in [s]. *)
Definition mentions (k s : string) : Prop := ∃ a b, s = a +:+ k +:+ b.

(** The keyword arguments add_fig_kwargs takes for itself. *)
Definition option_names : list string :=
  ["title"; "size_kwargs"; "show"; "savefig"; "tight_layout"].


Definition same_plt (p q : plt_ref) : bool :=
  match p, q with
  | ImportedPyplot, ImportedPyplot => true
  | SuppliedPlt a, SuppliedPlt b => Nat.eqb a b
  | _, _ => false
  end.

(** A call that goes to the pyplot [p], to its current figure or to its
    current Axes; imports and calls on anything else are not. *)
Definition local_to (p : plt_ref) (c : call) : bool :=
  match c with
  | Plt_figure q _ _ _ | Plt_gca q | Ax_set_prop_cycle q _ | Plt_gcf q
  | Plt_xticks q _ | Plt_yticks q _ | Ax_get_title q | Ax_set_title q _
  | Ax_get_xlabel q | Ax_set_xlabel q _ | Ax_get_ylabel q
  | Ax_set_ylabel q _ | Plt_show q =>
      same_plt q p
  | Fig_set_size_inches (GcfOf q) _ _ _ | Fig_suptitle (GcfOf q) _
  | Fig_savefig (GcfOf q) _ | Fig_tight_layout (GcfOf q) =>
      same_plt q p
  | _ => false
  end.

Definition is_subplots (c : call) : bool :=
  match c with Plt_subplots _ _ _ _ _ _ _ _ => true | _ => false end.

Definition is_gcf (c : call) : bool :=
  match c with Plt_gcf _ => true | _ => false end.

(** The calls of the helpers that make something new. *)
Definition creates (c : ax_call) : bool :=
  match c with
  | Ax_plt_figure | Ax_add_subplot _ _ _ | Ax_Axes3D => true
  | _ => false
  end.

(** [halts_at lib_raises m]: a call of [m] that raises is its last call, and
    its exception is the outcome of [m]. *)
Definition halts_at (lib_raises : call → option exn) {A} (m : M A) : Prop :=
  ∀ c e, c ∈ trace m → lib_raises c = Some e →
         outcome m = inl e ∧ last (trace m) = Some c.

(** The check behind the statement on the default height of an int width:
    0 for a width up to 1, and positive and below the width from 2 on. *)
Definition height_in_shape (n : Z) : bool :=
  match int_mul_float (PyInt n) golden_ratio with
  | inr h => if n <=? 1 then h =? 0 else (0 <? h) && (h <? n)
  | inl _ => false
  end.

(** The calls pretty_plot has made when the label size fails. *)
Definition title_calls (p : plt_ref) (ticksize : Z) (title_size : pynum)
    : list call :=
  [Plt_xticks p ticksize; Plt_yticks p ticksize; Plt_gca p; Ax_get_title p;
   Ax_set_title p title_size].

(** A float width on which int(width * 2.5) goes through and
    int(width * 3) overflows. *)
Definition wide : pynum := PyFloat 6e307.

(** * Properties *)

(** ** The monad *)

Lemma follows_ret {A} (a : A) (Q : A → Prop) : Q a → follows (ret a) [] Q.
Proof.
  intros HQ. split; [done|]. intros b Hb. injection Hb as <-. done.
Qed.

Lemma follows_bind {A B} (m : M A) (k : A → M B) p q
    (Q1 : A → Prop) (Q2 : B → Prop) :
  follows m p Q1 →
  (∀ a, Q1 a → follows (k a) q Q2) →
  follows (bind m k) (p ++ q) Q2.
Proof.
  destruct m as [t [e|a]]; intros [Hpre Hret] Hk; unfold bind.
  - split.
    + by apply prefix_app_r.
    + intros b Hb. discriminate Hb.
  - destruct (Hret a eq_refl) as [Ht HQ]. cbn in Ht. subst t.
    destruct (Hk a HQ) as [Hpre' Hret'].
    destruct (k a) as [t' r]. split.
    + by apply prefix_app.
    + intros b Hb. destruct (Hret' b Hb) as [Ht' Hb']. cbn in Ht'.
      by subst t'.
Qed.

Lemma follows_if {A} (b : bool) (m1 m2 : M A) p1 p2 Q :
  (b = true → follows m1 p1 Q) →
  (b = false → follows m2 p2 Q) →
  follows (if b then m1 else m2) (if b then p1 else p2) Q.
Proof. destruct b; auto. Qed.

Lemma bind_inv {A B} (m : M A) (k : A → M B) t b :
  bind m k = (t, inr b) →
  ∃ t1 a t2, m = (t1, inr a) ∧ k a = (t2, inr b) ∧ t = t1 ++ t2.
Proof.
  destruct m as [t1 [e|a]]; unfold bind; [discriminate|].
  destruct (k a) as [t2 r] eqn:Hk. intros [= <- ->]. by exists t1, a, t2.
Qed.

Lemma lift_inv {A} (r : exn + A) t a :
  lift r = (t, inr a) → r = inr a ∧ t = [].
Proof. by intros [= <- ->]. Qed.

Lemma ret_inv {A} (x : A) t a : ret x = (t, inr a) → x = a ∧ t = [].
Proof. by intros [= <- ->]. Qed.

Section Library.

Variable lib_raises : call → option exn.

Lemma follows_do (c : call) : follows (do lib_raises c) [c] (λ _, True).
Proof. split; [done|]. done. Qed.

Lemma do_inv (c : call) t a :
  do lib_raises c = (t, inr a) → lib_raises c = None ∧ t = [c].
Proof.
  unfold do. destruct (lib_raises c); [discriminate|]. by intros [= <- _].
Qed.

End Library.

(** ** add_fig_kwargs *)

Lemma kwargs_get_delete (m : gmap string pyval) (k k' : string) (d : pyval) :
  k ≠ k' → kwargs_get (delete k' m) k d = kwargs_get m k d.
Proof. intros Hne. unfold kwargs_get. by rewrite lookup_delete_ne. Qed.

Section WrapperFacts.

Variable lib_raises : call → option exn.
Variable func : list pyval → gmap string pyval → M pyval.

Local Abbreviation decorated := (wrapper lib_raises func).

(** A method call on the figure the wrapped function returned. *)
Lemma follows_fig_call id attr (c : fig_ref → call) :
  follows (f <- lift (fig_attr (PyFig id) attr) ;; do lib_raises (c f))
    [c (FigObj id)] (λ _, True).
Proof. apply (follows_do lib_raises (c (FigObj id))). Qed.

(** The resize step: the call is made when size_kwargs is a dict that has
    "w" and "h", and an exception stops the run before it otherwise. *)
Lemma follows_resize id size_kwargs :
  follows
    (if negb (is_None size_kwargs) then
       f <- lift (fig_attr (PyFig id) "set_size_inches") ;;
       d <- lift (dict_of size_kwargs) ;;
       wd <- lift (dict_pop d "w") ;;
       hd <- lift (dict_pop (snd wd) "h") ;;
       do lib_raises (Fig_set_size_inches f (fst wd) (fst hd) (snd hd))
     else ret ())
    (resize_calls id size_kwargs) (λ _, resize_ok size_kwargs).
Proof.
  destruct size_kwargs as [|b|n|s|d|i];
    try (split; [apply prefix_nil | discriminate]).
  - by apply follows_ret.
  - cbn [is_None negb fig_attr dict_of resize_calls resize_ok lift bind].
    unfold dict_pop at 1. destruct (d !! "w") as [w|] eqn:Hw;
      [|split; [apply prefix_nil | discriminate]].
    cbn [bind snd fst]. unfold dict_pop.
    rewrite lookup_delete_ne by done.
    destruct (d !! "h") as [h|] eqn:Hh;
      [|split; [apply prefix_nil | discriminate]].
    cbn [bind snd fst app default].
    destruct (follows_do lib_raises
                (Fig_set_size_inches (FigObj id) w h
                   (delete "h" (delete "w" d)))) as [Hpre Hret].
    split; [exact Hpre|]. intros a Ha. split; [by apply (Hret a)|].
    split; eauto.
Qed.

(** The wrapper runs the wrapped function on the remaining keyword
    arguments and, on a figure, goes through its plan. *)
Lemma wrapper_on_figure args kwargs tf id :
  func args (func_kwargs kwargs) = (tf, inr (PyFig id)) →
  ∃ post r,
    decorated args kwargs = (tf ++ post, r) ∧
    follows (post, r) (plan id kwargs)
      (λ v, v = PyFig id ∧ resize_ok (opt_size_kwargs kwargs)).
Proof.
  intros Hf. unfold wrapper. cbv zeta.
  rewrite !kwargs_get_delete by done.
  unfold func_kwargs in Hf. rewrite Hf. unfold bind at 1. cbn [is_None].
  match goal with |- context [let '(t', r) := ?K in _] =>
    destruct K as [post r] eqn:E end.
  exists post, r. split; [done|]. rewrite <- E. clear E Hf.
  fold (opt_title kwargs) (opt_size_kwargs kwargs) (opt_savefig kwargs)
    (opt_tight_layout kwargs) (opt_show kwargs).
  unfold plan.
  apply follows_bind with (Q1 := λ _, True).
  { apply follows_if; intros _;
      [apply (follows_fig_call id "suptitle"
                (λ f, Fig_suptitle f (opt_title kwargs)))
      | by apply follows_ret]. }
  intros _ _.
  apply follows_bind with (Q1 := λ _, resize_ok (opt_size_kwargs kwargs));
    [apply follows_resize|].
  intros _ Hsize.
  apply follows_bind with (Q1 := λ _, True).
  { apply follows_if; intros _;
      [apply (follows_fig_call id "savefig"
                (λ f, Fig_savefig f (opt_savefig kwargs)))
      | by apply follows_ret]. }
  intros _ _.
  apply follows_bind with (Q1 := λ _, True).
  { apply follows_if; intros _;
      [apply (follows_fig_call id "tight_layout" Fig_tight_layout)
      | by apply follows_ret]. }
  intros _ _.
  apply follows_bind with (Q1 := λ _, True).
  { apply follows_if; intros _; [|by apply follows_ret].
    apply (follows_bind _ _ [Import "matplotlib.pyplot"]
             [Plt_show ImportedPyplot] (λ _, True)); [apply follows_do|].
    intros _ _. apply follows_do. }
  intros _ _. by apply follows_ret.
Qed.

(** What every statement below starts from: the calls after those of the
    wrapped function are an initial part of the plan, and all of it when
    the wrapper returns. *)
Lemma wrapper_post args kwargs tf id :
  func args (func_kwargs kwargs) = (tf, inr (PyFig id)) →
  ∃ post,
    trace (decorated args kwargs) = tf ++ post ∧
    post `prefix_of` plan id kwargs ∧
    (returns (decorated args kwargs) →
     post = plan id kwargs ∧
     outcome (decorated args kwargs) = inr (PyFig id) ∧
     resize_ok (opt_size_kwargs kwargs)).
Proof.
  intros Hf. destruct (wrapper_on_figure _ _ _ _ Hf) as (post & r & E & F).
  exists post. rewrite E. destruct F as [Hpre Hret]. cbn in Hpre, Hret.
  split; [done|]. split; [done|]. intros [v Hv]. cbn in Hv.
  destruct (Hret v Hv) as (-> & -> & Hsize). by subst r.
Qed.

End WrapperFacts.

(** *** The plan *)

Lemma count_prefix P (l1 l2 : list call) :
  l1 `prefix_of` l2 → (count P l1 ≤ count P l2)%nat.
Proof.
  intros [k ->]. unfold count. rewrite List.filter_app, length_app. lia.
Qed.

Lemma filter_prefix P (l1 l2 : list call) :
  l1 `prefix_of` l2 → List.filter P l1 `prefix_of` List.filter P l2.
Proof. intros [k ->]. rewrite List.filter_app. by apply prefix_app_r. Qed.

Lemma actions_prefix (l1 l2 : list call) :
  l1 `prefix_of` l2 → actions l1 `prefix_of` actions l2.
Proof.
  intros [k ->]. unfold actions. rewrite omap_app. by apply prefix_app_r.
Qed.

Lemma resize_calls_cases id size_kwargs :
  (size_kwargs = PyNone ∧ resize_calls id size_kwargs = []) ∨
  (is_None size_kwargs = false ∧
   ∃ w h kw, resize_calls id size_kwargs =
             [Fig_set_size_inches (FigObj id) w h kw]).
Proof. destruct size_kwargs; cbn; eauto 8. Qed.

Lemma filter_show_plan id kwargs :
  List.filter is_show (plan id kwargs) =
  if py_truthy (opt_show kwargs) then [Plt_show ImportedPyplot] else [].
Proof.
  unfold plan. rewrite !List.filter_app.
  destruct (resize_calls_cases id (opt_size_kwargs kwargs))
    as [[_ ->]|[_ (w & h & kw & ->)]];
    destruct (negb (is_None (opt_title kwargs))),
      (py_truthy (opt_savefig kwargs)),
      (py_truthy (opt_tight_layout kwargs)),
      (py_truthy (opt_show kwargs)); reflexivity.
Qed.

Lemma filter_savefig_plan id kwargs :
  List.filter is_savefig (plan id kwargs) =
  if py_truthy (opt_savefig kwargs)
  then [Fig_savefig (FigObj id) (opt_savefig kwargs)] else [].
Proof.
  unfold plan. rewrite !List.filter_app.
  destruct (resize_calls_cases id (opt_size_kwargs kwargs))
    as [[_ ->]|[_ (w & h & kw & ->)]];
    destruct (negb (is_None (opt_title kwargs))),
      (py_truthy (opt_savefig kwargs)),
      (py_truthy (opt_tight_layout kwargs)),
      (py_truthy (opt_show kwargs)); reflexivity.
Qed.

Lemma actions_plan id kwargs :
  actions (plan id kwargs) = List.filter (enabled kwargs) all_actions.
Proof.
  unfold plan, actions, all_actions. rewrite !omap_app.
  cbn [List.filter enabled].
  destruct (resize_calls_cases id (opt_size_kwargs kwargs))
    as [[E ->]|[E (w & h & kw & ->)]]; rewrite ?E; cbn [is_None negb];
    destruct (negb (is_None (opt_title kwargs))),
      (py_truthy (opt_savefig kwargs)),
      (py_truthy (opt_tight_layout kwargs)),
      (py_truthy (opt_show kwargs)); reflexivity.
Qed.

Lemma enabled_actions_sorted kwargs :
  StronglySorted lt
    (map action_rank (List.filter (enabled kwargs) all_actions)).
Proof.
  unfold all_actions. cbn [List.filter].
  destruct (enabled kwargs SetTitle), (enabled kwargs Resize),
    (enabled kwargs Save), (enabled kwargs TightLayout),
    (enabled kwargs Show); cbn [map action_rank];
    repeat (constructor; [|repeat (constructor; [lia|]); try constructor]);
    constructor.
Qed.

Lemma plan_on_figure id kwargs c f :
  c ∈ plan id kwargs → call_fig c = Some f → f = FigObj id.
Proof.
  unfold plan. rewrite !elem_of_app. intros Hc Hf.
  destruct (resize_calls_cases id (opt_size_kwargs kwargs))
    as [[_ E]|[_ (w & h & kw & E)]]; rewrite E in Hc; clear E;
    destruct (negb (is_None (opt_title kwargs))),
      (py_truthy (opt_savefig kwargs)),
      (py_truthy (opt_tight_layout kwargs)),
      (py_truthy (opt_show kwargs));
    repeat match goal with
      | H : _ ∨ _ |- _ => destruct H as [H|H]
      | H : _ ∈ [] |- _ => by apply elem_of_nil in H
      | H : _ ∈ _ :: _ |- _ => apply elem_of_cons in H
      | H : c = _ |- _ => subst c; cbn in Hf
      end; congruence.
Qed.

(** *** What the decorated function does *)

Lemma kwargs_get_None (kwargs : gmap string pyval) k d :
  kwargs !! k = None → kwargs_get kwargs k d = d.
Proof. unfold kwargs_get. by intros ->. Qed.

Lemma kwargs_get_Some (kwargs : gmap string pyval) k d v :
  kwargs !! k = Some v → kwargs_get kwargs k d = v.
Proof. unfold kwargs_get. by intros ->. Qed.

Section Decorated.

Variable lib_raises : call → option exn.
Variable func : list pyval → gmap string pyval → M pyval.

Local Abbreviation decorated := (wrapper lib_raises func).

(** C1.  When the decorated function returns a figure, the calls the
    wrapper makes after it contain no display call if show=False was
    passed (whatever else happens, an exception included), and exactly
    one display call if show was omitted or passed as True and the call
    is not cut short by an exception. *)
Theorem show_option_controls_display args kwargs tf id :
  func args (func_kwargs kwargs) = (tf, inr (PyFig id)) →
  ∃ post,
    trace (decorated args kwargs) = tf ++ post ∧
    (kwargs !! "show" = Some (PyBool false) →
     count is_show post = 0%nat) ∧
    (kwargs !! "show" = None ∨ kwargs !! "show" = Some (PyBool true) →
     returns (decorated args kwargs) →
     List.filter is_show post = [Plt_show ImportedPyplot] ∧
     count is_show post = 1%nat).
Proof.
  intros Hf.
  destruct (wrapper_post lib_raises _ _ _ _ _ Hf) as (post & E & Hpre & Hret).
  exists post. split; [exact E|]. split.
  - intros Hshow. apply (count_prefix is_show) in Hpre.
    unfold count in Hpre at 2. rewrite filter_show_plan in Hpre.
    unfold opt_show in Hpre.
    rewrite (kwargs_get_Some _ _ _ _ Hshow) in Hpre. cbn in Hpre. lia.
  - intros Hshow Hr. destruct (Hret Hr) as (-> & _ & _).
    unfold count. rewrite filter_show_plan. unfold opt_show.
    destruct Hshow as [Hshow|Hshow];
      [rewrite (kwargs_get_None _ _ _ Hshow)
      |rewrite (kwargs_get_Some _ _ _ _ Hshow)]; done.
Qed.

(** C2.  When the decorated function returns a figure: with savefig set
    to a path (any truthy value, "x.png" among them) a call that is not cut
    short by an exception makes exactly one save call, on that figure and
    with that path; with savefig omitted or falsy there is no save call. *)
Theorem savefig_option_controls_save args kwargs tf id :
  func args (func_kwargs kwargs) = (tf, inr (PyFig id)) →
  ∃ post,
    trace (decorated args kwargs) = tf ++ post ∧
    (∀ path, kwargs !! "savefig" = Some path → py_truthy path = true →
             returns (decorated args kwargs) →
             List.filter is_savefig post = [Fig_savefig (FigObj id) path]) ∧
    (kwargs !! "savefig" = None ∨
     (∃ v, kwargs !! "savefig" = Some v ∧ py_truthy v = false) →
     List.filter is_savefig post = []).
Proof.
  intros Hf.
  destruct (wrapper_post lib_raises _ _ _ _ _ Hf) as (post & E & Hpre & Hret).
  exists post. split; [exact E|]. split.
  - intros path Hpath Htrue Hr. destruct (Hret Hr) as (-> & _ & _).
    rewrite filter_savefig_plan. unfold opt_savefig.
    rewrite (kwargs_get_Some _ _ _ _ Hpath). by rewrite Htrue.
  - intros Hno. apply (filter_prefix is_savefig) in Hpre.
    rewrite filter_savefig_plan in Hpre. unfold opt_savefig in Hpre.
    destruct Hno as [Hno|(v & Hv & Hfalse)].
    + rewrite (kwargs_get_None _ _ _ Hno) in Hpre. cbn in Hpre.
      by apply prefix_nil_inv in Hpre.
    + rewrite (kwargs_get_Some _ _ _ _ Hv), Hfalse in Hpre.
      by apply prefix_nil_inv in Hpre.
Qed.

(** C5.  When the decorated function returns a figure, the actions the
    wrapper applies come in the fixed order title, resize, save,
    tight-layout, show, each at most once (the ranks of the applied
    actions increase strictly); an action is applied only if its option
    is set; the four figure actions are applied on the returned figure;
    and when the call is not cut short by an exception every action whose
    option is set is applied. *)
Theorem actions_in_fixed_order args kwargs tf id :
  func args (func_kwargs kwargs) = (tf, inr (PyFig id)) →
  ∃ post,
    trace (decorated args kwargs) = tf ++ post ∧
    StronglySorted lt (map action_rank (actions post)) ∧
    (∀ a, a ∈ actions post → enabled kwargs a = true) ∧
    (∀ c f, c ∈ post → call_fig c = Some f → f = FigObj id) ∧
    (returns (decorated args kwargs) →
     actions post = List.filter (enabled kwargs) all_actions).
Proof.
  intros Hf.
  destruct (wrapper_post lib_raises _ _ _ _ _ Hf) as (post & E & Hpre & Hret).
  exists post. split; [exact E|].
  pose proof (actions_prefix _ _ Hpre) as Hact.
  rewrite actions_plan in Hact. destruct Hact as [k Hk].
  split; [|split; [|split]].
  - pose proof (enabled_actions_sorted kwargs) as Hs.
    rewrite Hk, map_app in Hs. by apply StronglySorted_app_1_l in Hs.
  - intros a Ha.
    assert (a ∈ List.filter (enabled kwargs) all_actions) as Hin
      by (rewrite Hk; apply elem_of_app; by left).
    apply list_elem_of_In, List.filter_In in Hin. by destruct Hin.
  - intros c f Hc. apply (plan_on_figure id kwargs).
    destruct Hpre as [k' ->]. apply elem_of_app. by left.
  - intros Hr. destruct (Hret Hr) as (-> & _ & _). apply actions_plan.
Qed.

(** C8.  If the wrapped function returns None, so does the wrapper, and
    its calls are those of the wrapped function and no other: no title,
    no resize, no save, no tight-layout and no display call, whatever the
    options (show left at its default True included). *)
Theorem none_result_skips_post_processing args kwargs tf :
  func args (func_kwargs kwargs) = (tf, inr PyNone) →
  decorated args kwargs = (tf, inr PyNone).
Proof.
  intros Hf. unfold wrapper. cbv zeta.
  unfold func_kwargs in Hf. rewrite Hf. cbn [bind is_None ret].
  by rewrite app_nil_r.
Qed.

(** C4 (as amended).  When the decorated function returns a figure and
    the call is not cut short by an exception: a title that is not None
    is passed unchanged to fig.suptitle; a truthy savefig is passed
    unchanged to fig.savefig; a size_kwargs that is not None is a dict
    with the keys "w" and "h", whose values become the two positional
    arguments of fig.set_size_inches and whose other entries become its
    keyword options.  show and tight_layout are tested for truth and
    passed to no call. *)
Theorem options_forwarded args kwargs tf id :
  func args (func_kwargs kwargs) = (tf, inr (PyFig id)) →
  returns (decorated args kwargs) →
  ∃ post,
    trace (decorated args kwargs) = tf ++ post ∧
    (∀ title, kwargs !! "title" = Some title → title ≠ PyNone →
              Fig_suptitle (FigObj id) title ∈ post) ∧
    (∀ path, kwargs !! "savefig" = Some path → py_truthy path = true →
             Fig_savefig (FigObj id) path ∈ post) ∧
    (∀ sk, kwargs !! "size_kwargs" = Some sk → sk ≠ PyNone →
           ∃ d w h, sk = PyDict d ∧ d !! "w" = Some w ∧ d !! "h" = Some h ∧
                    Fig_set_size_inches (FigObj id) w h
                      (delete "h" (delete "w" d)) ∈ post).
Proof.
  intros Hf Hr.
  destruct (wrapper_post lib_raises _ _ _ _ _ Hf) as (post & E & _ & Hret).
  destruct (Hret Hr) as (-> & _ & Hsize). eexists. split; [exact E|].
  unfold plan. split; [|split].
  - intros title Ht Hne. unfold opt_title.
    rewrite (kwargs_get_Some _ _ _ _ Ht).
    destruct title; [done|..]; apply elem_of_app; left; apply list_elem_of_here.
  - intros path Hp Htrue. unfold opt_savefig.
    rewrite (kwargs_get_Some _ _ _ _ Hp), Htrue.
    do 2 (apply elem_of_app; right). apply elem_of_app; left.
    apply list_elem_of_here.
  - intros sk Hsk Hne. unfold opt_size_kwargs in *.
    rewrite (kwargs_get_Some _ _ _ _ Hsk) in *.
    destruct sk as [| | | |d|]; try done.
    destruct Hsize as [[w Hw] [h Hh]]. exists d, w, h.
    split; [done|]. split; [done|]. split; [done|].
    apply elem_of_app; right. apply elem_of_app; left.
    cbn [resize_calls]. rewrite Hw, Hh. apply list_elem_of_here.
Qed.

End Decorated.

(** The wrapper does return on the calls the statements above are about:
    a library that does not raise, a wrapped function that returns a
    figure, and a size_kwargs that is None or a dict with "w" and "h". *)
Lemma returns_bind {A B} (m : M A) (k : A → M B) a :
  outcome m = inr a → returns (k a) → returns (bind m k).
Proof.
  destruct m as [t [e|a']]; intros [= <-] [b Hb]. unfold bind.
  destruct (k a') as [t' r]. by exists b.
Qed.

Lemma returns_do lib_raises c :
  lib_raises c = None → outcome (do lib_raises c) = inr ().
Proof. intros H. unfold do. by rewrite H. Qed.

Lemma returns_ret {A} (a : A) : returns (ret a).
Proof. by exists a. Qed.

Lemma wrapper_returns lib_raises func args kwargs tf id :
  (∀ c, lib_raises c = None) →
  func args (func_kwargs kwargs) = (tf, inr (PyFig id)) →
  resize_ok (opt_size_kwargs kwargs) →
  returns (wrapper lib_raises func args kwargs).
Proof.
  intros Hlib Hf Hsize. unfold wrapper. cbv zeta.
  rewrite !kwargs_get_delete by done.
  unfold func_kwargs in Hf. rewrite Hf.
  apply (returns_bind _ _ (PyFig id)); [done|]. cbn [is_None].
  fold (opt_size_kwargs kwargs).
  assert (∀ (b : bool) (m : M ()), outcome m = inr () →
            outcome (if b then m else ret ()) = inr ()) as Hif
    by (by intros [] ??).
  assert (∀ attr (c : fig_ref → call),
            outcome (f <- lift (fig_attr (PyFig id) attr) ;;
                     do lib_raises (c f)) = inr ()) as Hcall
    by (intros; apply (returns_do lib_raises), Hlib).
  apply (returns_bind _ _ ());
    [apply Hif, (Hcall _ (λ f, Fig_suptitle f _))|].
  apply (returns_bind _ _ ()).
  { destruct (opt_size_kwargs kwargs) as [| | | |d|]; try done.
    destruct Hsize as [[w Hw] [h Hh]].
    cbn [is_None negb fig_attr dict_of lift bind]. unfold dict_pop at 1.
    rewrite Hw. cbn [bind snd fst]. unfold dict_pop.
    rewrite lookup_delete_ne, Hh by done. cbn [bind snd fst app].
    apply (returns_do lib_raises), Hlib. }
  apply (returns_bind _ _ ());
    [apply Hif, (Hcall _ (λ f, Fig_savefig f _))|].
  apply (returns_bind _ _ ()); [apply Hif, (Hcall _ Fig_tight_layout)|].
  apply (returns_bind _ _ ()); [|apply returns_ret].
  apply Hif. unfold do. by rewrite !Hlib.
Qed.

(** *** The statements at concrete calls *)

Lemma show_option_controls_display_witness :
  (∃ post,
     trace (wrapper no_raise plot_func [] {[ "show" := PyBool false ]}) =
     [Plt_gcf ImportedPyplot] ++ post ∧ count is_show post = 0%nat) ∧
  (∃ post,
     trace (wrapper no_raise plot_func [] ∅) =
     [Plt_gcf ImportedPyplot] ++ post ∧ count is_show post = 1%nat).
Proof.
  split.
  - destruct (show_option_controls_display no_raise plot_func []
                {[ "show" := PyBool false ]} [Plt_gcf ImportedPyplot] 0
                eq_refl) as (post & E & H & _).
    exists post. split; [exact E|]. apply H. reflexivity.
  - destruct (show_option_controls_display no_raise plot_func []
                ∅ [Plt_gcf ImportedPyplot] 0 eq_refl) as (post & E & _ & H).
    exists post. split; [exact E|]. apply H.
    + left. reflexivity.
    + exists (PyFig 0). vm_compute. reflexivity.
Defined.

Lemma savefig_option_controls_save_witness :
  ∃ post,
    trace (wrapper no_raise plot_func []
             {[ "savefig" := PyStr "x.png"; "show" := PyBool false ]}) =
    [Plt_gcf ImportedPyplot] ++ post ∧
    List.filter is_savefig post = [Fig_savefig (FigObj 0) (PyStr "x.png")].
Proof.
  destruct (savefig_option_controls_save no_raise plot_func []
              {[ "savefig" := PyStr "x.png"; "show" := PyBool false ]}
              [Plt_gcf ImportedPyplot] 0 eq_refl) as (post & E & H & _).
  exists post. split; [exact E|]. apply H.
  - vm_compute. reflexivity.
  - reflexivity.
  - exists (PyFig 0). vm_compute. reflexivity.
Defined.

Lemma actions_in_fixed_order_witness :
  ∃ post,
    trace (wrapper no_raise plot_func []
             {[ "title" := PyStr "E(k)"; "tight_layout" := PyBool true;
                "savefig" := PyStr "x.png" ]}) =
    [Plt_gcf ImportedPyplot] ++ post ∧
    actions post = [SetTitle; Save; TightLayout; Show].
Proof.
  destruct (actions_in_fixed_order no_raise plot_func []
              {[ "title" := PyStr "E(k)"; "tight_layout" := PyBool true;
                 "savefig" := PyStr "x.png" ]}
              [Plt_gcf ImportedPyplot] 0 eq_refl) as (post & E & _ & _ & _ & H).
  exists post. split; [exact E|]. rewrite H.
  - vm_compute. reflexivity.
  - exists (PyFig 0). vm_compute. reflexivity.
Defined.

Lemma none_result_skips_post_processing_witness :
  wrapper no_raise none_func []
    {[ "title" := PyStr "E(k)"; "savefig" := PyStr "x.png" ]} =
  ([Plt_gcf ImportedPyplot], inr PyNone).
Proof.
  apply (none_result_skips_post_processing no_raise none_func). reflexivity.
Defined.

Lemma options_forwarded_witness :
  ∃ post,
    trace (wrapper no_raise plot_func []
             {[ "size_kwargs" :=
                  PyDict {[ "w" := PyNum (PyInt 3); "h" := PyNum (PyInt 4);
                            "forward" := PyBool true ]} ]}) =
    [Plt_gcf ImportedPyplot] ++ post ∧
    Fig_set_size_inches (FigObj 0) (PyNum (PyInt 3)) (PyNum (PyInt 4))
      {[ "forward" := PyBool true ]} ∈ post.
Proof.
  set (d := ({[ "w" := PyNum (PyInt 3); "h" := PyNum (PyInt 4);
                "forward" := PyBool true ]} : gmap string pyval)).
  destruct (options_forwarded no_raise plot_func []
              {[ "size_kwargs" := PyDict d ]} [Plt_gcf ImportedPyplot] 0
              eq_refl) as (post & E & _ & _ & H).
  { exists (PyFig 0). vm_compute. reflexivity. }
  exists post. split; [exact E|].
  destruct (H (PyDict d)) as (d' & w & h & Hd & Hw & Hh & Hin);
    [reflexivity | discriminate |].
  injection Hd as <-.
  assert (w = PyNum (PyInt 3)) as -> by (vm_compute in Hw; congruence).
  assert (h = PyNum (PyInt 4)) as -> by (vm_compute in Hh; congruence).
  assert (delete "h" (delete "w" d) = {[ "forward" := PyBool true ]}) as <-
    by (vm_compute; reflexivity).
  exact Hin.
Defined.

(** C4 as stated fails: with size_kwargs={} the lookup of "w" raises
    KeyError and fig.set_size_inches is never called, so not every dict is
    forwarded. *)
Lemma size_kwargs_not_every_dict :
  wrapper no_raise plot_func [] {[ "size_kwargs" := PyDict ∅ ]} =
  ([Plt_gcf ImportedPyplot], inl (KeyError "w")) ∧
  ¬ (∀ d : gmap string pyval,
       ∃ f w h kw,
         Fig_set_size_inches f w h kw ∈
         trace (wrapper no_raise plot_func []
                  {[ "size_kwargs" := PyDict d ]})).
Proof.
  assert (wrapper no_raise plot_func [] {[ "size_kwargs" := PyDict ∅ ]} =
          ([Plt_gcf ImportedPyplot], inl (KeyError "w"))) as E
    by (vm_compute; reflexivity).
  split; [exact E|]. intros H. destruct (H ∅) as (f & w & h & kw & Hin).
  rewrite E in Hin. cbn in Hin. apply elem_of_cons in Hin.
  destruct Hin as [Hin|Hin]; [discriminate|]. by apply elem_of_nil in Hin.
Qed.

(** ** pretty_plot *)

(** Taking a returning run apart, bind by bind. *)
Ltac invert_run :=
  repeat (cbv beta in *;
          match goal with
          | H : bind _ _ = (_, inr _) |- _ =>
              apply bind_inv in H; destruct H as (? & ? & ? & ? & H & ?)
          | H : lift _ = (_, inr _) |- _ =>
              apply lift_inv in H; destruct H as [H ?]
          | H : ret _ = (_, inr _) |- _ =>
              apply ret_inv in H; destruct H as [H ?]
          | H : do _ _ = (_, inr _) |- _ =>
              apply do_inv in H; destruct H as [H ?]
          end).

Section PrettyPlot.

Variable lib_raises : call → option exn.

(** A run of pretty_plot that returns: the values it computed and the
    calls it made. *)
Lemma pretty_plot_run width height plt dpi color_cycle t p :
  pretty_plot lib_raises width height plt dpi color_cycle = (t, inr p) →
  ∃ ticksize used title_size z labelsize,
    int_mul_float width 2.5 = inr ticksize ∧
    (if py_truthy height then used = height
     else ∃ h, int_mul_float width golden_ratio = inr h ∧
               used = PyNum (PyInt h)) ∧
    mul_int width 4 = inr title_size ∧
    mul_int width 3 = inr z ∧ py_int z = inr labelsize ∧
    p = plt_of plt ∧
    t = setup_calls width used plt dpi color_cycle ++
        font_calls p ticksize title_size labelsize.
Proof.
  unfold pretty_plot. intros H.
  apply bind_inv in H. destruct H as (t1 & x & t2 & Hx & H & ->).
  apply lift_inv in Hx. destruct Hx as [Hx ->].
  apply bind_inv in H. destruct H as (t1 & ticksize & t3 & Ht & H & ->).
  apply lift_inv in Ht. destruct Ht as [Ht ->].
  apply bind_inv in H. destruct H as (t1 & used & t4 & Hu & H & ->).
  apply bind_inv in H. destruct H as (t5 & p' & t6 & Hp & H & ->).
  assert (p' = plt_of plt ∧
          t5 = setup_calls width used plt dpi color_cycle) as [-> ->].
  { destruct plt as [n|]; invert_run; by subst. }
  invert_run. subst.
  match goal with
  | H1 : mul_int width 4 = inr ?ts, H2 : mul_int width 3 = inr ?zz,
    H3 : py_int ?zz = inr ?ls |- _ =>
      exists ticksize, used, ts, zz, ls
  end.
  repeat split; try done.
  - unfold int_mul_float. by rewrite Hx.
  - destruct (py_truthy height); cbn [negb] in Hu.
    + by apply ret_inv in Hu as [-> _].
    + invert_run. subst.
      match goal with
      | H1 : mul_float width golden_ratio = inr ?y,
        H2 : int_of_float ?y = inr ?h |- _ =>
          exists h; unfold int_mul_float; by rewrite H1
      end.
  - destruct (py_truthy height); cbn [negb] in Hu; invert_run; by subst.
Qed.

Lemma Forall_trace_bind {A B} (P : call → Prop) (m : M A) (k : A → M B) :
  Forall P (trace m) → (∀ a, Forall P (trace (k a))) →
  Forall P (trace (bind m k)).
Proof.
  destruct m as [t [e|a]]; intros Ht Hk; [done|]. unfold bind.
  specialize (Hk a). destruct (k a) as [t' r]. by apply Forall_app.
Qed.

Lemma Forall_trace_do (P : call → Prop) c :
  P c → Forall P (trace (do lib_raises c)).
Proof. intros Hc. by apply Forall_singleton. Qed.

(** With a pyplot supplied, no call of pretty_plot is a call to
    [figure], however the run ends. *)
Lemma supplied_plt_no_figure width height n dpi color_cycle :
  Forall (λ c, is_figure c = false)
    (trace (pretty_plot lib_raises width height (Some n) dpi color_cycle)).
Proof.
  unfold pretty_plot.
  repeat first
    [ apply Forall_trace_bind; [|intros ?]
    | by apply Forall_trace_do
    | by apply Forall_nil
    | match goal with |- context [if ?b then _ else _] => destruct b end ].
Qed.

(** C3 (as amended).  When no height is given, a run of pretty_plot that
    returns sizes the figure, new or supplied, to the width and to
    int(width * golden_ratio): the product with (sqrt(5) - 1) / 2, which
    lies between 0.618 and 0.619, cut to its integer part, not rounded.
    For width 8 that height is 4, and for every int width from 0 to 2000
    the float computation gives the integer part of the exact product
    with the golden ratio. *)
Theorem default_height_truncates width plt dpi color_cycle t p :
  pretty_plot lib_raises width PyNone plt dpi color_cycle = (t, inr p) →
  ∃ h,
    int_mul_float width golden_ratio = inr h ∧
    match plt with
    | None => Plt_figure ImportedPyplot (width, PyNum (PyInt h)) "w" dpi
    | Some n => Fig_set_size_inches (GcfOf (SuppliedPlt n)) (PyNum width)
                  (PyNum (PyInt h)) ∅
    end ∈ t ∧
    (0.618 <? golden_ratio)%float = true ∧
    (golden_ratio <? 0.619)%float = true ∧
    (width = PyInt 8 → h = 4) ∧
    (∀ n, width = PyInt n → 0 ≤ n ≤ 2000 → h = exact_default_height n).
Proof.
  intros H. apply pretty_plot_run in H.
  destruct H as (ticks & used & ts & z & ls & _ & Hu & _ & _ & _ & -> & ->).
  cbn [py_truthy] in Hu. destruct Hu as (h & Hh & ->). exists h.
  split; [exact Hh|]. split; [|split; [|split; [|split]]].
  - apply elem_of_app. left. destruct plt; cbn [setup_calls].
    + apply list_elem_of_lookup. by exists 1%nat.
    + apply list_elem_of_lookup. by exists 5%nat.
  - by vm_compute.
  - by vm_compute.
  - intros ->. vm_compute in Hh. congruence.
  - intros n -> Hn.
    assert (forallb height_agrees (seqZ 0 2001) = true) as Hall
      by (vm_compute; reflexivity).
    rewrite forallb_forall in Hall.
    assert (height_agrees n = true) as Hag
      by (apply Hall, list_elem_of_In, elem_of_seqZ; lia).
    unfold height_agrees in Hag. rewrite Hh in Hag. by apply Z.eqb_eq.
Qed.

(** C10.  A falsy height (0, 0.0, False, None, ...) is treated as no
    height at all: pretty_plot behaves exactly as with height=None, and a
    run that returns sizes the figure to int(width * golden_ratio), not
    to the value given. *)
Theorem falsy_height_is_unset width height plt dpi color_cycle :
  py_truthy height = false →
  pretty_plot lib_raises width height plt dpi color_cycle =
  pretty_plot lib_raises width PyNone plt dpi color_cycle ∧
  ∀ t p,
    pretty_plot lib_raises width height plt dpi color_cycle = (t, inr p) →
    ∃ h,
      int_mul_float width golden_ratio = inr h ∧
      match plt with
      | None => Plt_figure ImportedPyplot (width, PyNum (PyInt h)) "w" dpi
      | Some n => Fig_set_size_inches (GcfOf (SuppliedPlt n)) (PyNum width)
                    (PyNum (PyInt h)) ∅
      end ∈ t.
Proof.
  intros Hfalsy.
  assert (pretty_plot lib_raises width height plt dpi color_cycle =
          pretty_plot lib_raises width PyNone plt dpi color_cycle) as E
    by (unfold pretty_plot; by rewrite Hfalsy).
  split; [exact E|]. intros t p H. rewrite E in H.
  apply pretty_plot_run in H.
  destruct H as (ticks & used & ts & z & ls & _ & Hu & _ & _ & _ & -> & ->).
  cbn [py_truthy] in Hu. destruct Hu as (h & Hh & ->). exists h.
  split; [exact Hh|]. apply elem_of_app. left.
  destruct plt; cbn [setup_calls]; apply list_elem_of_lookup;
    [by exists 1%nat | by exists 5%nat].
Qed.

(** C6 (as amended).  In a run of pretty_plot that returns, the tick font
    size is int(width * 2.5) and the axis-label size is int(width * 3),
    both cut to their integer part, and the title size is width * 4 as it
    is.  For an int width n the label size is 3n and the title size 4n;
    for an int width n from -2000 to 2000 the tick size is 5n/2 with the
    fraction dropped, so on these widths it is width * 2.5 for even n
    only.  (The bound is needed: the product is a float, and for an n
    beyond 2^51 it is rounded before int() cuts it.) *)
Theorem font_sizes_from_width width height plt dpi color_cycle t p :
  pretty_plot lib_raises width height plt dpi color_cycle = (t, inr p) →
  ∃ ticksize title_size z labelsize,
    int_mul_float width 2.5 = inr ticksize ∧
    mul_int width 3 = inr z ∧ py_int z = inr labelsize ∧
    mul_int width 4 = inr title_size ∧
    Plt_xticks p ticksize ∈ t ∧ Plt_yticks p ticksize ∈ t ∧
    Ax_set_xlabel p labelsize ∈ t ∧ Ax_set_ylabel p labelsize ∈ t ∧
    Ax_set_title p title_size ∈ t ∧
    ∀ n, width = PyInt n →
         labelsize = n * 3 ∧ title_size = PyInt (n * 4) ∧
         (-2000 ≤ n ≤ 2000 → ticksize = Z.quot (5 * n) 2).
Proof.
  intros H. apply pretty_plot_run in H.
  destruct H
    as (ticks & used & ts & z & ls & Ht & _ & Hts & Hz & Hls & -> & ->).
  exists ticks, ts, z, ls. repeat (split; [done|]).
  assert (∀ c, c ∈ font_calls (plt_of plt) ticks ts ls →
               c ∈ setup_calls width used plt dpi color_cycle ++
                   font_calls (plt_of plt) ticks ts ls) as Hin
    by (intros c Hc; apply elem_of_app; by right).
  split; [apply Hin, list_elem_of_lookup; by exists 0%nat|].
  split; [apply Hin, list_elem_of_lookup; by exists 1%nat|].
  split; [apply Hin, list_elem_of_lookup; by exists 6%nat|].
  split; [apply Hin, list_elem_of_lookup; by exists 8%nat|].
  split; [apply Hin, list_elem_of_lookup; by exists 4%nat|].
  intros n ->. cbn in Hts, Hz. injection Hts as <-. injection Hz as <-.
  cbn in Hls. injection Hls as <-. split; [done|]. split; [done|].
  intros Hn.
  assert (forallb ticksize_agrees (seqZ (-2000) 4001) = true) as Hall
    by (vm_compute; reflexivity).
  rewrite forallb_forall in Hall.
  assert (ticksize_agrees n = true) as Hag
    by (apply Hall, list_elem_of_In, elem_of_seqZ; lia).
  unfold ticksize_agrees in Hag. rewrite Ht in Hag. by apply Z.eqb_eq.
Qed.

(** C7.  With a pyplot supplied, pretty_plot never calls [figure], and a
    run that returns has resized the current figure of that pyplot to
    (width, height), height being the one given or the default, and
    returns that pyplot.  With none supplied, a run that returns has made
    exactly one [figure] call, on the pyplot it imports and with that
    size, and has set the requested color cycle.  So a [figure] call is
    made only when no pyplot is supplied. *)
Theorem supplied_plot_is_resized width height dpi color_cycle :
  (∀ n,
     Forall (λ c, is_figure c = false)
       (trace (pretty_plot lib_raises width height (Some n) dpi color_cycle)) ∧
     ∀ t p,
       pretty_plot lib_raises width height (Some n) dpi color_cycle =
         (t, inr p) →
       p = SuppliedPlt n ∧
       ∃ used,
         Fig_set_size_inches (GcfOf (SuppliedPlt n)) (PyNum width) used ∅
           ∈ t ∧
         if py_truthy height then used = height
         else ∃ h, int_mul_float width golden_ratio = inr h ∧
                   used = PyNum (PyInt h)) ∧
  (∀ t p,
     pretty_plot lib_raises width height None dpi color_cycle = (t, inr p) →
     p = ImportedPyplot ∧
     ∃ used,
       List.filter is_figure t =
         [Plt_figure ImportedPyplot (width, used) "w" dpi] ∧
       Ax_set_prop_cycle ImportedPyplot color_cycle ∈ t ∧
       if py_truthy height then used = height
       else ∃ h, int_mul_float width golden_ratio = inr h ∧
                 used = PyNum (PyInt h)) ∧
  (∀ plt c,
     c ∈ trace (pretty_plot lib_raises width height plt dpi color_cycle) →
     is_figure c = true → plt = None).
Proof.
  split; [|split].
  - intros n. split; [apply supplied_plt_no_figure|]. intros t p H.
    apply pretty_plot_run in H.
    destruct H as (ticks & used & ts & z & ls & _ & Hu & _ & _ & _ & -> & ->).
    split; [done|]. exists used. split; [|exact Hu].
    apply elem_of_app. left. apply list_elem_of_lookup. by exists 1%nat.
  - intros t p H. apply pretty_plot_run in H.
    destruct H as (ticks & used & ts & z & ls & _ & Hu & _ & _ & _ & -> & ->).
    split; [done|]. exists used. split; [done|]. split; [|exact Hu].
    apply elem_of_app. left. apply list_elem_of_lookup. by exists 8%nat.
  - intros [n|] c Hc Hfig; [|done].
    pose proof (supplied_plt_no_figure width height n dpi color_cycle) as Hall.
    rewrite Forall_forall in Hall. specialize (Hall c Hc). congruence.
Qed.

End PrettyPlot.

(** *** The statements at concrete calls *)

Lemma default_height_truncates_witness :
  int_mul_float (PyInt 8) golden_ratio = inr 4 ∧
  Plt_figure ImportedPyplot (PyInt 8, PyNum (PyInt 4)) "w" PyNone ∈
    trace (pretty_plot no_raise (PyInt 8) PyNone None PyNone
             default_color_cycle).
Proof.
  destruct (default_height_truncates no_raise (PyInt 8) None PyNone
              default_color_cycle
              (trace (pretty_plot no_raise (PyInt 8) PyNone None PyNone
                        default_color_cycle))
              ImportedPyplot) as (h & Hh & Hin & _ & _ & H8 & _).
  { vm_compute. reflexivity. }
  rewrite (H8 eq_refl) in Hh, Hin. split; [exact Hh | exact Hin].
Defined.

(** C3 as stated fails: for width 8 the figure gets the height 4, the
    integer part of 8 * 0.618... = 4.94..., while rounding that product
    gives 5. *)
Lemma default_height_is_not_rounded :
  round_mul_float (PyInt 8) 0.618 = inr 5 ∧
  round_mul_float (PyInt 8) golden_ratio = inr 5 ∧
  List.filter is_figure
    (trace (pretty_plot no_raise (PyInt 8) PyNone None PyNone
              default_color_cycle)) =
  [Plt_figure ImportedPyplot (PyInt 8, PyNum (PyInt 4)) "w" PyNone] ∧
  ¬ (∃ r,
       round_mul_float (PyInt 8) 0.618 = inr r ∧
       Plt_figure ImportedPyplot (PyInt 8, PyNum (PyInt r)) "w" PyNone ∈
         trace (pretty_plot no_raise (PyInt 8) PyNone None PyNone
                  default_color_cycle)).
Proof.
  assert (round_mul_float (PyInt 8) 0.618 = inr 5) as Hr
    by (vm_compute; reflexivity).
  assert (List.filter is_figure
            (trace (pretty_plot no_raise (PyInt 8) PyNone None PyNone
                      default_color_cycle)) =
          [Plt_figure ImportedPyplot (PyInt 8, PyNum (PyInt 4)) "w" PyNone])
    as Hfig by (vm_compute; reflexivity).
  split; [exact Hr|]. split; [vm_compute; reflexivity|].
  split; [exact Hfig|]. intros (r & Hr' & Hin).
  rewrite Hr in Hr'. injection Hr' as <-.
  apply list_elem_of_In in Hin.
  assert (In (Plt_figure ImportedPyplot (PyInt 8, PyNum (PyInt 5)) "w" PyNone)
            (List.filter is_figure
               (trace (pretty_plot no_raise (PyInt 8) PyNone None PyNone
                         default_color_cycle)))) as Hin'
    by (apply List.filter_In; by split).
  rewrite Hfig in Hin'. destruct Hin' as [Heq|[]]. discriminate Heq.
Qed.

Lemma falsy_height_is_unset_witness :
  pretty_plot no_raise (PyInt 8) (PyNum (PyInt 0)) (Some 0%nat) PyNone
    default_color_cycle =
  pretty_plot no_raise (PyInt 8) PyNone (Some 0%nat) PyNone
    default_color_cycle ∧
  Fig_set_size_inches (GcfOf (SuppliedPlt 0)) (PyNum (PyInt 8))
    (PyNum (PyInt 4)) ∅ ∈
    trace (pretty_plot no_raise (PyInt 8) (PyNum (PyInt 0)) (Some 0%nat)
             PyNone default_color_cycle).
Proof.
  destruct (falsy_height_is_unset no_raise (PyInt 8) (PyNum (PyInt 0))
              (Some 0%nat) PyNone default_color_cycle eq_refl) as [E H].
  split; [exact E|].
  destruct (H (trace (pretty_plot no_raise (PyInt 8) (PyNum (PyInt 0))
                        (Some 0%nat) PyNone default_color_cycle))
              (SuppliedPlt 0)) as (h & Hh & Hin).
  { vm_compute. reflexivity. }
  assert (h = 4) as -> by (vm_compute in Hh; congruence).
  exact Hin.
Defined.

Lemma font_sizes_from_width_witness :
  Plt_xticks ImportedPyplot 7 ∈
    trace (pretty_plot no_raise (PyInt 3) PyNone None PyNone
             default_color_cycle) ∧
  Ax_set_xlabel ImportedPyplot 9 ∈
    trace (pretty_plot no_raise (PyInt 3) PyNone None PyNone
             default_color_cycle) ∧
  Ax_set_title ImportedPyplot (PyInt 12) ∈
    trace (pretty_plot no_raise (PyInt 3) PyNone None PyNone
             default_color_cycle).
Proof.
  destruct (font_sizes_from_width no_raise (PyInt 3) PyNone None PyNone
              default_color_cycle
              (trace (pretty_plot no_raise (PyInt 3) PyNone None PyNone
                        default_color_cycle))
              ImportedPyplot)
    as (ticks & ts & z & ls & _ & _ & _ & _ & Hx & _ & Hl & _ & Ht & Hn).
  { vm_compute. reflexivity. }
  destruct (Hn 3 eq_refl) as (-> & -> & Hticks).
  rewrite Hticks in Hx by lia. done.
Defined.

(** C6 as stated fails: for width 1 the tick font size is 2, not
    1 * 2.5 = 2.5. *)
Lemma tick_size_is_truncated :
  List.filter is_xticks
    (trace (pretty_plot no_raise (PyInt 1) PyNone None PyNone
              default_color_cycle)) =
  [Plt_xticks ImportedPyplot 2] ∧
  mul_float (PyInt 1) 2.5 = inr 2.5%float ∧
  ¬ (∃ x n,
       mul_float (PyInt 1) 2.5 = inr x ∧
       Plt_xticks ImportedPyplot n ∈
         trace (pretty_plot no_raise (PyInt 1) PyNone None PyNone
                  default_color_cycle) ∧
       float_of_int n = inr x).
Proof.
  assert (List.filter is_xticks
            (trace (pretty_plot no_raise (PyInt 1) PyNone None PyNone
                      default_color_cycle)) =
          [Plt_xticks ImportedPyplot 2]) as Hx by (vm_compute; reflexivity).
  assert (mul_float (PyInt 1) 2.5 = inr 2.5%float) as Hm
    by (vm_compute; reflexivity).
  split; [exact Hx|]. split; [exact Hm|]. intros (x & n & Hm' & Hin & Hn).
  rewrite Hm in Hm'. injection Hm' as <-.
  apply list_elem_of_In in Hin.
  assert (In (Plt_xticks ImportedPyplot n)
            (List.filter is_xticks
               (trace (pretty_plot no_raise (PyInt 1) PyNone None PyNone
                         default_color_cycle)))) as Hin'
    by (apply List.filter_In; by split).
  rewrite Hx in Hin'. destruct Hin' as [Heq|[]]. injection Heq as <-.
  apply (f_equal (λ r : exn + float,
                    match r with inr f => Prim2SF f | inl _ => S754_nan end))
    in Hn.
  vm_compute in Hn. discriminate Hn.
Qed.

(** Why the statement on the tick size of an int width has a bound: for
    n = 2^51 + 3 the product n * 2.5 is not a float, it is rounded up to the
    next even integer, and int() gives one more than 5n/2 cut. *)
Lemma ticksize_rounds_on_large_width :
  int_mul_float (PyInt (2 ^ 51 + 3)) 2.5 = inr 5629499534213128 ∧
  Z.quot (5 * (2 ^ 51 + 3)) 2 = 5629499534213127.
Proof. split; vm_compute; reflexivity. Qed.

Lemma supplied_plot_is_resized_witness :
  Forall (λ c, is_figure c = false)
    (trace (pretty_plot no_raise (PyInt 8) (PyNum (PyInt 6)) (Some 0%nat)
              PyNone default_color_cycle)) ∧
  Fig_set_size_inches (GcfOf (SuppliedPlt 0)) (PyNum (PyInt 8))
    (PyNum (PyInt 6)) ∅ ∈
    trace (pretty_plot no_raise (PyInt 8) (PyNum (PyInt 6)) (Some 0%nat)
             PyNone default_color_cycle) ∧
  List.filter is_figure
    (trace (pretty_plot no_raise (PyInt 8) (PyNum (PyInt 6)) None PyNone
              default_color_cycle)) =
  [Plt_figure ImportedPyplot (PyInt 8, PyNum (PyInt 6)) "w" PyNone].
Proof.
  destruct (supplied_plot_is_resized no_raise (PyInt 8) (PyNum (PyInt 6))
              PyNone default_color_cycle) as (Hsome & Hnone & _).
  destruct (Hsome 0%nat) as [Hall Hrun]. split; [exact Hall|]. split.
  - destruct (Hrun (trace (pretty_plot no_raise (PyInt 8) (PyNum (PyInt 6))
                             (Some 0%nat) PyNone default_color_cycle))
                (SuppliedPlt 0)) as (_ & used & Hin & Hu).
    { vm_compute. reflexivity. }
    cbn in Hu. by subst used.
  - destruct (Hnone (trace (pretty_plot no_raise (PyInt 8) (PyNum (PyInt 6))
                              None PyNone default_color_cycle))
                ImportedPyplot) as (_ & used & Hfig & _ & Hu).
    { vm_compute. reflexivity. }
    cbn in Hu. by subst used.
Defined.

(** ** get_axarray_fig_plt *)

(** C9 fails on the code.  With squeeze on and an ax_array of exactly one
    Axes, the function indexes the one-element array at 1: the call never
    returns, and where the library does not raise first the exception is
    IndexError.  The element that was to be returned is the one at 0. *)
Theorem squeeze_of_single_axes_raises lib_raises a nrows ncols sharex sharey
    squeeze subplot_kw gridspec_kw fig_kw :
  py_truthy squeeze = true →
  length (ravel a) = 1%nat →
  ∃ e,
    outcome (get_axarray_fig_plt lib_raises (Some a) nrows ncols sharex
               sharey squeeze subplot_kw gridspec_kw fig_kw) = inl e ∧
    (lib_raises (Import "matplotlib.pyplot") = None →
     lib_raises (Plt_gcf ImportedPyplot) = None →
     e = IndexError) ∧
    ∃ ax, index (ravel a) 0 = inr ax.
Proof.
  intros Hsq Hlen. unfold get_axarray_fig_plt. rewrite Hsq.
  destruct (ravel a) as [|ax [|ax' l]] eqn:Hr; try discriminate Hlen.
  cbn [length Nat.eqb index lookup list_lookup lift].
  unfold do.
  destruct (lib_raises (Import "matplotlib.pyplot")) as [e1|];
    [exists e1; split; [done|]; split; [done | by exists ax]|].
  destruct (lib_raises (Plt_gcf ImportedPyplot)) as [e2|];
    [exists e2; split; [done|]; split; [done | by exists ax]|].
  exists IndexError. split; [done|]. split; [done | by exists ax].
Qed.

Lemma squeeze_of_single_axes_raises_witness :
  outcome (get_axarray_fig_plt no_raise (Some single_axes) (PyNum (PyInt 1))
             (PyNum (PyInt 1)) (PyBool false) (PyBool false) (PyBool true)
             PyNone PyNone ∅) = inl IndexError.
Proof.
  destruct (squeeze_of_single_axes_raises no_raise single_axes
              (PyNum (PyInt 1)) (PyNum (PyInt 1)) (PyBool false)
              (PyBool false) (PyBool true) PyNone PyNone ∅ eq_refl eq_refl)
    as (e & He & Hidx & _).
  rewrite He. f_equal. apply Hidx; reflexivity.
Defined.

(** * Further properties *)

(** ** add_fig_kwargs: the wrapped function and its result *)

(** X1.  The wrapper starts by running the wrapped function, once, on the
    positional arguments as they are and on the keyword arguments minus the
    five options; what it does afterwards depends on the wrapped function
    through the result of that run only.  An option never reaches the
    wrapped function, and every other keyword argument reaches it
    unchanged. *)
Theorem options_consumed_others_passed lib_raises args kwargs :
  (∀ k, func_kwargs kwargs !! k =
        if bool_decide (k ∈ option_names) then None else kwargs !! k) ∧
  ∃ rest : pyval → M pyval,
    ∀ func,
      wrapper lib_raises func args kwargs =
      bind (func args (func_kwargs kwargs)) rest.
Proof.
  split.
  - intros k. unfold func_kwargs, option_names. rewrite !lookup_delete.
    case_bool_decide as Hk.
    + repeat case_decide; try done. exfalso.
      repeat (apply elem_of_cons in Hk; destruct Hk as [Hk|Hk]; [by subst|]).
      by apply elem_of_nil in Hk.
    + repeat case_decide; try done; subst k; exfalso; apply Hk;
        repeat first [apply list_elem_of_here | apply list_elem_of_further].
  - eexists. intros func. unfold wrapper, func_kwargs. cbv zeta.
    reflexivity.
Qed.

Lemma options_consumed_others_passed_witness :
  ∃ post,
    trace (wrapper no_raise echo_func []
             {[ "show" := PyBool false; "figsize" := PyNum (PyInt 8) ]}) =
    [Plt_subplots PyNone PyNone PyNone PyNone PyNone PyNone PyNone
       {[ "figsize" := PyNum (PyInt 8) ]}] ++ post.
Proof.
  destruct (options_consumed_others_passed no_raise []
              {[ "show" := PyBool false; "figsize" := PyNum (PyInt 8) ]})
    as [Hkw [rest Hrun]].
  assert (func_kwargs
            {[ "show" := PyBool false; "figsize" := PyNum (PyInt 8) ]} =
          ({[ "figsize" := PyNum (PyInt 8) ]} : gmap string pyval)) as E.
  { apply map_eq. intros k. rewrite Hkw. case_bool_decide as Hk.
    - symmetry. apply lookup_singleton_ne. intros <-.
      vm_compute in Hk.
      repeat (apply elem_of_cons in Hk as [Hk|Hk]; [discriminate|]).
      by apply elem_of_nil in Hk.
    - destruct (decide (k = "show")) as [->|Hne].
      + exfalso. apply Hk.
        apply list_elem_of_further, list_elem_of_further, list_elem_of_here.
      + by rewrite lookup_insert_ne. }
  rewrite (Hrun echo_func). unfold echo_func at 1. rewrite E.
  unfold bind. destruct (rest PyNone) as [post r]. by exists post.
Defined.

(** X2.  The wrapper is transparent on the outcome of the wrapped
    function: an exception of that function comes out as it is, with no
    call added; and when the wrapper returns, it returns the very value the
    function returned. *)
Theorem wrapper_transparent lib_raises func args kwargs tf :
  (∀ e, func args (func_kwargs kwargs) = (tf, inl e) →
        wrapper lib_raises func args kwargs = (tf, inl e)) ∧
  (∀ v v', func args (func_kwargs kwargs) = (tf, inr v) →
           outcome (wrapper lib_raises func args kwargs) = inr v' →
           v' = v).
Proof.
  split.
  - intros e Hf. unfold wrapper. cbv zeta. unfold func_kwargs in Hf.
    by rewrite Hf.
  - intros v v' Hf Hout.
    destruct (wrapper lib_raises func args kwargs) as [t r] eqn:E.
    cbn in Hout. subst r. unfold wrapper in E. cbv zeta in E.
    unfold func_kwargs in Hf. rewrite Hf in E.
    apply bind_inv in E. destruct E as (t1 & a & t2 & Ha & E & ->).
    injection Ha as <- <-.
    destruct (is_None v); [by apply ret_inv in E as [-> _]|].
    repeat (apply bind_inv in E; destruct E as (? & ? & ? & _ & E & ->)).
    by apply ret_inv in E as [-> _].
Qed.

Lemma wrapper_transparent_witness :
  wrapper no_raise (λ _ _, ([Plt_gcf ImportedPyplot], inl ValueError)) []
    {[ "title" := PyStr "E(k)" ]} =
  ([Plt_gcf ImportedPyplot], inl ValueError).
Proof.
  apply (proj1 (wrapper_transparent no_raise
                  (λ _ _, ([Plt_gcf ImportedPyplot], inl ValueError)) []
                  {[ "title" := PyStr "E(k)" ]} [Plt_gcf ImportedPyplot])).
  reflexivity.
Defined.

(** ** add_fig_kwargs: errors *)

(** X3.  A size_kwargs dict without "w", or with "w" and without "h",
    stops the call with KeyError on the first key that is missing: the
    title (if any) has been set by then, and there is no resize, save,
    tight-layout or display call. *)
Theorem missing_size_key_raises lib_raises func args kwargs tf id d :
  func args (func_kwargs kwargs) = (tf, inr (PyFig id)) →
  kwargs !! "size_kwargs" = Some (PyDict d) →
  d !! "w" = None ∨ d !! "h" = None →
  lib_raises (Fig_suptitle (FigObj id) (opt_title kwargs)) = None →
  wrapper lib_raises func args kwargs =
  (tf ++ (if is_None (opt_title kwargs) then []
          else [Fig_suptitle (FigObj id) (opt_title kwargs)]),
   inl (KeyError (match d !! "w" with Some _ => "h" | None => "w" end))).
Proof.
  intros Hf Hsk Hmiss Hlib. unfold wrapper. cbv zeta.
  rewrite !kwargs_get_delete by done.
  unfold func_kwargs in Hf. rewrite Hf.
  fold (opt_title kwargs).
  rewrite (kwargs_get_Some _ "size_kwargs" _ _ Hsk).
  cbn [bind is_None negb fig_attr dict_of lift].
  unfold do. rewrite Hlib. unfold dict_pop at 1.
  destruct (d !! "w") as [w|] eqn:Hw.
  - destruct Hmiss as [|Hh]; [done|].
    cbn [bind snd fst]. unfold dict_pop.
    rewrite lookup_delete_ne, Hh by done.
    destruct (is_None (opt_title kwargs)); cbn [negb bind ret app];
      by rewrite ?app_nil_r.
  - destruct (is_None (opt_title kwargs)); cbn [negb bind ret app];
      by rewrite ?app_nil_r.
Qed.

Lemma missing_size_key_raises_witness :
  wrapper no_raise plot_func []
    {[ "title" := PyStr "E(k)";
       "size_kwargs" := PyDict {[ "w" := PyNum (PyInt 3) ]} ]} =
  ([Plt_gcf ImportedPyplot; Fig_suptitle (FigObj 0) (PyStr "E(k)")],
   inl (KeyError "h")).
Proof.
  etransitivity.
  - apply (missing_size_key_raises no_raise plot_func []
             {[ "title" := PyStr "E(k)";
                "size_kwargs" := PyDict {[ "w" := PyNum (PyInt 3) ]} ]}
             [Plt_gcf ImportedPyplot] 0 {[ "w" := PyNum (PyInt 3) ]}).
    + reflexivity.
    + vm_compute. reflexivity.
    + right. vm_compute. reflexivity.
    + reflexivity.
  - vm_compute. reflexivity.
Defined.

Lemma halts_at_silent lib_raises {A} (m : M A) :
  trace m = [] → halts_at lib_raises m.
Proof. intros E c e Hc. rewrite E in Hc. by apply elem_of_nil in Hc. Qed.

Lemma halts_at_do lib_raises c : halts_at lib_raises (do lib_raises c).
Proof.
  intros c' e Hc He. cbn in Hc. apply list_elem_of_singleton in Hc as ->.
  unfold do. by rewrite He.
Qed.

Lemma halts_at_bind lib_raises {A B} (m : M A) (k : A → M B) :
  halts_at lib_raises m → (∀ a, halts_at lib_raises (k a)) →
  halts_at lib_raises (bind m k).
Proof.
  destruct m as [t [x|a]]; intros Hm Hk.
  { intros c e Hc He. destruct (Hm c e Hc He) as [Ho Hl]. cbn in Ho, Hl.
    injection Ho as ->. by split. }
  specialize (Hk a). unfold bind. destruct (k a) as [t' r].
  intros c e Hc He. cbn in Hc. apply elem_of_app in Hc as [Hc|Hc].
  - by destruct (Hm c e Hc He).
  - destruct (Hk c e Hc He) as [Hr Hlast]. cbn in Hr, Hlast.
    split; [exact Hr|]. cbn. by rewrite last_app, Hlast.
Qed.

Lemma halts_at_if lib_raises {A} (b : bool) (m1 m2 : M A) :
  halts_at lib_raises m1 → halts_at lib_raises m2 →
  halts_at lib_raises (if b then m1 else m2).
Proof. by destruct b. Qed.

(** X4.  The wrapper catches nothing: after the wrapped function has
    returned, a library call that raises is the last call the wrapper
    makes and its exception is the outcome of the whole call; so when the
    wrapper returns, none of its calls has raised. *)
Theorem first_raise_stops_wrapper lib_raises func args kwargs tf v :
  func args (func_kwargs kwargs) = (tf, inr v) →
  ∃ post,
    trace (wrapper lib_raises func args kwargs) = tf ++ post ∧
    (∀ c e, c ∈ post → lib_raises c = Some e →
            outcome (wrapper lib_raises func args kwargs) = inl e ∧
            last post = Some c) ∧
    (returns (wrapper lib_raises func args kwargs) →
     Forall (λ c, lib_raises c = None) post).
Proof.
  intros Hf.
  assert (∃ post r, wrapper lib_raises func args kwargs = (tf ++ post, r) ∧
                    halts_at lib_raises (post, r)) as (post & r & E & H).
  { unfold wrapper. cbv zeta. unfold func_kwargs in Hf. rewrite Hf.
    unfold bind at 1.
    match goal with |- context [let '(t', r) := ?K in _] =>
      destruct K as [post r] eqn:E end.
    exists post, r. split; [done|]. rewrite <- E. clear E.
    destruct (is_None v); [by apply halts_at_silent|].
    repeat first
      [ apply halts_at_bind; [|intros ?]
      | apply halts_at_if
      | apply halts_at_do
      | by apply halts_at_silent ]. }
  exists post. rewrite E. split; [done|]. split; [exact H|].
  intros [a Ha]. cbn in Ha. apply Forall_forall. intros c Hc.
  destruct (lib_raises c) as [e|] eqn:He; [|done].
  destruct (H c e Hc He) as [Hr _]. cbn in Hr. congruence.
Qed.

Lemma first_raise_stops_wrapper_witness :
  ∃ post,
    trace (wrapper (λ c, if is_savefig c then Some (ExternalError "disk")
                         else None)
             plot_func [] {[ "savefig" := PyStr "x.png" ]}) =
    [Plt_gcf ImportedPyplot] ++ post ∧
    last post = Some (Fig_savefig (FigObj 0) (PyStr "x.png")) ∧
    outcome (wrapper (λ c, if is_savefig c then Some (ExternalError "disk")
                           else None)
               plot_func [] {[ "savefig" := PyStr "x.png" ]}) =
    inl (ExternalError "disk").
Proof.
  destruct (first_raise_stops_wrapper
              (λ c, if is_savefig c then Some (ExternalError "disk")
                    else None)
              plot_func [] {[ "savefig" := PyStr "x.png" ]}
              [Plt_gcf ImportedPyplot] (PyFig 0) eq_refl)
    as (post & E & H & _).
  exists post. split; [exact E|].
  assert (Fig_savefig (FigObj 0) (PyStr "x.png") ∈ post) as Hin.
  { vm_compute in E. injection E as <-. apply list_elem_of_here. }
  destruct (H _ (ExternalError "disk") Hin eq_refl) as [Hout Hlast].
  split; [exact Hlast | exact Hout].
Defined.



(** ** add_fig_kwargs: the display call comes last *)

Lemma snoc_prefix_full {A} (l k init : list A) (x : A) :
  l ++ k = init ++ [x] → x ∈ l → x ∉ init → l = init ++ [x].
Proof.
  intros E Hin Hout. destruct k as [|y k _] using rev_ind.
  - by rewrite app_nil_r in E.
  - rewrite app_assoc in E. apply app_inj_tail in E as [E _].
    subst init. exfalso. apply Hout, elem_of_app. by left.
Qed.

Lemma plan_show_last id kwargs :
  Plt_show ImportedPyplot ∈ plan id kwargs →
  ∃ init, plan id kwargs = init ++ [Plt_show ImportedPyplot] ∧
          Plt_show ImportedPyplot ∉ init.
Proof.
  intros Hin.
  assert (py_truthy (opt_show kwargs) = true) as Hshow.
  { apply list_elem_of_In in Hin.
    assert (In (Plt_show ImportedPyplot)
              (List.filter is_show (plan id kwargs))) as H
      by (apply List.filter_In; by split).
    rewrite filter_show_plan in H. by destruct (py_truthy (opt_show kwargs)). }
  pose proof (filter_show_plan id kwargs) as Hf. rewrite Hshow in Hf.
  unfold plan in *. rewrite Hshow in *. rewrite app_nil_r in *.
  rewrite !app_assoc in *.
  change [Import "matplotlib.pyplot"; Plt_show ImportedPyplot]
    with ([Import "matplotlib.pyplot"] ++ [Plt_show ImportedPyplot]) in *.
  rewrite app_assoc in *. eexists. split; [reflexivity|].
  rewrite List.filter_app in Hf. cbn [List.filter is_show] in Hf.
  intros Hin'. apply list_elem_of_In in Hin'.
  assert (In (Plt_show ImportedPyplot)
            (List.filter is_show
               (((((if negb (is_None (opt_title kwargs))
                    then [Fig_suptitle (FigObj id) (opt_title kwargs)]
                    else []) ++
                   resize_calls id (opt_size_kwargs kwargs)) ++
                  (if py_truthy (opt_savefig kwargs)
                   then [Fig_savefig (FigObj id) (opt_savefig kwargs)]
                   else [])) ++
                 (if py_truthy (opt_tight_layout kwargs)
                  then [Fig_tight_layout (FigObj id)] else [])) ++
                [Import "matplotlib.pyplot"]))) as H
    by (apply List.filter_In; by split).
  destruct (List.filter is_show _) as [|z l] in Hf, H; [done|].
  destruct l; discriminate Hf.
Qed.

(** X6.  When the decorated function returns a figure, the display call,
    if the wrapper makes it, is its last call, and every action whose option
    is set has been applied before it: the figure is shown only after it
    has been given its title and size, saved and laid out. *)
Theorem display_comes_last lib_raises func args kwargs tf id :
  func args (func_kwargs kwargs) = (tf, inr (PyFig id)) →
  ∃ post,
    trace (wrapper lib_raises func args kwargs) = tf ++ post ∧
    (Plt_show ImportedPyplot ∈ post →
     last post = Some (Plt_show ImportedPyplot) ∧
     actions post = List.filter (enabled kwargs) all_actions).
Proof.
  intros Hf.
  destruct (wrapper_post lib_raises _ _ _ _ _ Hf) as (post & E & Hpre & _).
  exists post. split; [exact E|]. intros Hin.
  assert (Plt_show ImportedPyplot ∈ plan id kwargs) as Hin'
    by (destruct Hpre as [k ->]; apply elem_of_app; by left).
  destruct (plan_show_last _ _ Hin') as (init & Hplan & Hout).
  destruct Hpre as [k Hk]. rewrite Hplan in Hk. symmetry in Hk.
  pose proof (snoc_prefix_full _ _ _ _ Hk Hin Hout) as ->.
  split; [apply last_snoc|]. rewrite <- Hplan. apply actions_plan.
Qed.

Lemma display_comes_last_witness :
  ∃ post,
    trace (wrapper no_raise plot_func [] {[ "savefig" := PyStr "x.png" ]}) =
    [Plt_gcf ImportedPyplot] ++ post ∧
    last post = Some (Plt_show ImportedPyplot) ∧
    actions post = [Save; Show].
Proof.
  destruct (display_comes_last no_raise plot_func []
              {[ "savefig" := PyStr "x.png" ]} [Plt_gcf ImportedPyplot] 0
              eq_refl) as (post & E & H).
  exists post. split; [exact E|].
  destruct H as [Hlast Hact].
  { vm_compute in E. injection E as <-.
    do 2 apply list_elem_of_further. apply list_elem_of_here. }
  split; [exact Hlast|]. rewrite Hact. vm_compute. reflexivity.
Defined.

(** ** pretty_plot: which calls, and when it returns *)

Lemma Forall_trace_bind_outcome {A B} (P : call → Prop)
    (m : M A) (k : A → M B) :
  Forall P (trace m) →
  (∀ a, outcome m = inr a → Forall P (trace (k a))) →
  Forall P (trace (bind m k)).
Proof.
  destruct m as [t [e|a]]; intros Ht Hk; [done|]. unfold bind.
  specialize (Hk a eq_refl). destruct (k a) as [t' r]. by apply Forall_app.
Qed.

(** X7.  With a pyplot supplied, pretty_plot imports nothing and touches
    nothing else: every call it makes, however the run ends, goes to the
    supplied pyplot, to its current figure or to its current Axes. *)
Theorem supplied_plt_only lib_raises width height n dpi color_cycle :
  Forall (λ c, local_to (SuppliedPlt n) c = true)
    (trace (pretty_plot lib_raises width height (Some n) dpi color_cycle)).
Proof.
  assert (same_plt (SuppliedPlt n) (SuppliedPlt n) = true) as Hn
    by apply Nat.eqb_refl.
  unfold pretty_plot.
  apply Forall_trace_bind; [by apply Forall_nil | intros x].
  apply Forall_trace_bind; [by apply Forall_nil | intros ticksize].
  apply Forall_trace_bind.
  { destruct (py_truthy height); cbn [negb]; [by apply Forall_nil|].
    repeat first
      [ apply Forall_trace_bind; [|intros ?] | by apply Forall_nil ]. }
  intros used.
  apply Forall_trace_bind_outcome.
  { repeat first
      [ apply Forall_trace_bind; [|intros ?]
      | by apply (Forall_trace_do lib_raises)
      | by apply Forall_nil ]. }
  intros p Hp.
  assert (p = SuppliedPlt n) as ->.
  { destruct (_ ;;; _ ;;; ret (SuppliedPlt n)) as [t r] eqn:E in Hp.
    cbn in Hp. subst r. invert_run. by subst. }
  repeat first
    [ apply Forall_trace_bind; [|intros ?]
    | by apply (Forall_trace_do lib_raises)
    | by apply Forall_nil ].
Qed.

Lemma int_mul_float_inv n c z :
  int_mul_float n c = inr z →
  ∃ x, mul_float n c = inr x ∧ int_of_float x = inr z.
Proof.
  unfold int_mul_float. destruct (mul_float n c) as [e|x]; [done|].
  intros H. by exists x.
Qed.

Lemma mul_int_4_total width : ∃ ts, mul_int width 4 = inr ts.
Proof. destruct width; cbn; eauto. Qed.

Ltac run_pretty_plot Hlib :=
  unfold pretty_plot, do;
  repeat (progress (repeat rewrite Hlib;
                    repeat match goal with
                      | H : _ = inr _ |- _ => rewrite H
                      | H : _ = inl _ |- _ => rewrite H
                      | H : py_truthy _ = _ |- _ => rewrite H
                      end;
                    cbn [bind lift ret negb])).

(** A run of pretty_plot in which the library does not raise and every
    size can be computed: the converse of [pretty_plot_run]. *)
Lemma pretty_plot_complete lib_raises width height plt dpi color_cycle
    ticksize used title_size z labelsize :
  (∀ c, lib_raises c = None) →
  int_mul_float width 2.5 = inr ticksize →
  (if py_truthy height then used = height
   else ∃ h, int_mul_float width golden_ratio = inr h ∧
             used = PyNum (PyInt h)) →
  mul_int width 4 = inr title_size →
  mul_int width 3 = inr z → py_int z = inr labelsize →
  pretty_plot lib_raises width height plt dpi color_cycle =
  (setup_calls width used plt dpi color_cycle ++
   font_calls (plt_of plt) ticksize title_size labelsize,
   inr (plt_of plt)).
Proof.
  intros Hlib Ht Hu Hts Hz Hl.
  apply int_mul_float_inv in Ht as (x & Hx & Ht).
  destruct (py_truthy height) eqn:Hh.
  - subst used. destruct plt; run_pretty_plot Hlib; reflexivity.
  - destruct Hu as (h & Hu & ->).
    apply int_mul_float_inv in Hu as (y & Hy & Hu).
    destruct plt; run_pretty_plot Hlib; reflexivity.
Qed.

(** X9.  pretty_plot is not all-or-nothing.  When the library does not
    raise and int(width * 3) fails (a float width so large that the product
    overflows, while width * 2.5 does not), the exception comes after the
    figure has been created or resized, the tick sizes set and the title
    resized: those calls have been made, the label calls have not. *)
Theorem pretty_plot_label_failure lib_raises width height plt dpi color_cycle
    ticksize used title_size z e :
  (∀ c, lib_raises c = None) →
  int_mul_float width 2.5 = inr ticksize →
  (if py_truthy height then used = height
   else ∃ h, int_mul_float width golden_ratio = inr h ∧
             used = PyNum (PyInt h)) →
  mul_int width 4 = inr title_size →
  mul_int width 3 = inr z → py_int z = inl e →
  pretty_plot lib_raises width height plt dpi color_cycle =
  (setup_calls width used plt dpi color_cycle ++
   title_calls (plt_of plt) ticksize title_size,
   inl e).
Proof.
  intros Hlib Ht Hu Hts Hz Hl.
  apply int_mul_float_inv in Ht as (x & Hx & Ht).
  destruct (py_truthy height) eqn:Hh.
  - subst used. destruct plt; run_pretty_plot Hlib; reflexivity.
  - destruct Hu as (h & Hu & ->).
    apply int_mul_float_inv in Hu as (y & Hy & Hu).
    destruct plt; run_pretty_plot Hlib; reflexivity.
Qed.

Lemma pretty_plot_label_failure_witness :
  pretty_plot no_raise wide (PyNum (PyInt 2)) (Some 3%nat) PyNone
    default_color_cycle =
  ([Plt_gcf (SuppliedPlt 3);
    Fig_set_size_inches (GcfOf (SuppliedPlt 3)) (PyNum wide)
      (PyNum (PyInt 2)) ∅] ++
   title_calls (SuppliedPlt 3)
     (match int_mul_float wide 2.5 with inr t => t | inl _ => 0 end)
     (PyFloat infinity),
   inl OverflowError).
Proof.
  apply (pretty_plot_label_failure no_raise wide (PyNum (PyInt 2))
           (Some 3%nat) PyNone default_color_cycle _ (PyNum (PyInt 2))
           (PyFloat infinity) (PyFloat infinity) OverflowError).
  - reflexivity.
  - vm_compute. reflexivity.
  - reflexivity.
  - vm_compute. reflexivity.
  - vm_compute. reflexivity.
  - vm_compute. reflexivity.
Defined.

(** X8.  With a library that does not raise, pretty_plot returns exactly
    when its three integer sizes can be computed: int(width * 2.5),
    int(width * golden_ratio) if the height is falsy, and int(width * 3).
    Nothing else can stop it. *)
Theorem pretty_plot_returns_iff lib_raises width height plt dpi color_cycle :
  (∀ c, lib_raises c = None) →
  returns (pretty_plot lib_raises width height plt dpi color_cycle) ↔
  (∃ t, int_mul_float width 2.5 = inr t) ∧
  (py_truthy height = false →
   ∃ h, int_mul_float width golden_ratio = inr h) ∧
  (∃ z l, mul_int width 3 = inr z ∧ py_int z = inr l).
Proof.
  intros Hlib. split.
  - intros [p Hp].
    destruct (pretty_plot lib_raises width height plt dpi color_cycle)
      as [t r] eqn:E.
    cbn in Hp. subst r. apply pretty_plot_run in E.
    destruct E as (ticks & used & ts & z & ls & Ht & Hu & _ & Hz & Hl & _).
    split; [by exists ticks|]. split; [|by exists z, ls].
    intros Hf. rewrite Hf in Hu. destruct Hu as (h & Hh & _). by exists h.
  - intros ([t Ht] & Hh & (z & l & Hz & Hl)).
    destruct (mul_int_4_total width) as [ts Hts].
    assert (∃ used, if py_truthy height then used = height
                    else ∃ h, int_mul_float width golden_ratio = inr h ∧
                              used = PyNum (PyInt h)) as [used Hu].
    { destruct (py_truthy height); [by eexists|].
      destruct (Hh eq_refl) as [h Hh']. eauto. }
    exists (plt_of plt).
    by rewrite (pretty_plot_complete lib_raises width height plt dpi
                  color_cycle t used ts z l).
Qed.

Lemma pretty_plot_returns_iff_witness :
  returns (pretty_plot no_raise (PyFloat 6.5) PyNone None PyNone
             default_color_cycle) ∧
  ¬ returns (pretty_plot no_raise (PyFloat nan) PyNone None PyNone
               default_color_cycle).
Proof.
  split.
  - apply (pretty_plot_returns_iff no_raise (PyFloat 6.5) PyNone None PyNone
             default_color_cycle); [reflexivity|].
    split; [eexists; vm_compute; reflexivity|].
    split; [intros _; eexists; vm_compute; reflexivity|].
    do 2 eexists. split; vm_compute; reflexivity.
  - intros H.
    apply (pretty_plot_returns_iff no_raise (PyFloat nan) PyNone None PyNone
             default_color_cycle) in H; [|reflexivity].
    destruct H as [[t Ht] _]. vm_compute in Ht. discriminate Ht.
Defined.

(** X10.  For every int width from 0 to 2000 and a library that does not
    raise, pretty_plot returns, whatever the height, the pyplot and the
    other arguments: on these widths no size computation fails. *)
Theorem pretty_plot_returns_on_int_widths lib_raises n height plt dpi
    color_cycle :
  (∀ c, lib_raises c = None) →
  0 ≤ n ≤ 2000 →
  returns (pretty_plot lib_raises (PyInt n) height plt dpi color_cycle).
Proof.
  intros Hlib Hn.
  assert (forallb ticksize_agrees (seqZ (-2000) 4001) = true) as Hticks
    by (vm_compute; reflexivity).
  assert (forallb height_agrees (seqZ 0 2001) = true) as Hheight
    by (vm_compute; reflexivity).
  rewrite forallb_forall in Hticks, Hheight.
  assert (ticksize_agrees n = true) as Ht
    by (apply Hticks, list_elem_of_In, elem_of_seqZ; lia).
  assert (height_agrees n = true) as Hh
    by (apply Hheight, list_elem_of_In, elem_of_seqZ; lia).
  unfold ticksize_agrees in Ht. unfold height_agrees in Hh.
  destruct (int_mul_float (PyInt n) 2.5) as [|t] eqn:Et; [done|].
  destruct (int_mul_float (PyInt n) golden_ratio) as [|h] eqn:Eh; [done|].
  exists (plt_of plt).
  by rewrite (pretty_plot_complete lib_raises (PyInt n) height plt dpi
                color_cycle t
                (if py_truthy height then height else PyNum (PyInt h))
                (PyInt (n * 4)) (PyInt (n * 3)) (n * 3));
    try done; destruct (py_truthy height); eauto.
Qed.

Lemma pretty_plot_returns_on_int_widths_witness :
  returns (pretty_plot no_raise (PyInt 12) PyNone (Some 0%nat) PyNone
             default_color_cycle).
Proof.
  apply (pretty_plot_returns_on_int_widths no_raise 12); [reflexivity | lia].
Defined.

(** X11.  The default height of an int width (height falsy, width from 0
    to 2000): a run of pretty_plot that returns has sized the figure to a
    height that is 0 for the widths 0 and 1, and positive and smaller than
    the width from 2 on. *)
Theorem default_height_shape lib_raises n height plt dpi color_cycle t p :
  pretty_plot lib_raises (PyInt n) height plt dpi color_cycle = (t, inr p) →
  py_truthy height = false →
  0 ≤ n ≤ 2000 →
  ∃ h,
    match plt with
    | None => Plt_figure ImportedPyplot (PyInt n, PyNum (PyInt h)) "w" dpi
    | Some k => Fig_set_size_inches (GcfOf (SuppliedPlt k)) (PyNum (PyInt n))
                  (PyNum (PyInt h)) ∅
    end ∈ t ∧
    (n ≤ 1 → h = 0) ∧ (2 ≤ n → 0 < h < n).
Proof.
  intros H Hfalsy Hn. apply pretty_plot_run in H.
  destruct H as (ticks & used & ts & z & ls & _ & Hu & _ & _ & _ & -> & ->).
  rewrite Hfalsy in Hu. destruct Hu as (h & Hh & ->). exists h. split.
  { apply elem_of_app. left.
    destruct plt; cbn [setup_calls]; apply list_elem_of_lookup;
      [by exists 1%nat | by exists 5%nat]. }
  assert (forallb height_in_shape (seqZ 0 2001) = true) as Hall
    by (vm_compute; reflexivity).
  rewrite forallb_forall in Hall.
  assert (height_in_shape n = true) as Hs
    by (apply Hall, list_elem_of_In, elem_of_seqZ; lia).
  unfold height_in_shape in Hs. rewrite Hh in Hs.
  destruct (n <=? 1) eqn:Hle.
  - apply Z.leb_le in Hle. apply Z.eqb_eq in Hs. split; [done | lia].
  - apply Z.leb_gt in Hle. apply andb_true_iff in Hs as [H1 H2].
    apply Z.ltb_lt in H1, H2. split; lia.
Qed.

Lemma default_height_shape_witness :
  ∃ h,
    Plt_figure ImportedPyplot (PyInt 1, PyNum (PyInt h)) "w" PyNone ∈
      trace (pretty_plot no_raise (PyInt 1) PyNone None PyNone
               default_color_cycle) ∧
    h = 0.
Proof.
  destruct (default_height_shape no_raise 1 PyNone None PyNone
              default_color_cycle
              (trace (pretty_plot no_raise (PyInt 1) PyNone None PyNone
                        default_color_cycle))
              ImportedPyplot) as (h & Hin & H0 & _).
  - vm_compute. reflexivity.
  - reflexivity.
  - lia.
  - exists h. split; [exact Hin | apply H0; lia].
Defined.

(** ** get_axarray_fig_plt: the other paths *)

(** X12.  With a library that does not raise, get_axarray_fig_plt fails in
    one case only: an ax_array of exactly one Axes with squeeze on.  In
    every other case (no ax_array, squeeze off, or any other number of
    Axes, none included) it returns. *)
Theorem get_axarray_returns_iff lib_raises ax_array nrows ncols sharex
    sharey squeeze subplot_kw gridspec_kw fig_kw :
  (∀ c, lib_raises c = None) →
  returns (get_axarray_fig_plt lib_raises ax_array nrows ncols sharex sharey
             squeeze subplot_kw gridspec_kw fig_kw) ↔
  ¬ (∃ a, ax_array = Some a ∧ py_truthy squeeze = true ∧
          length (ravel a) = 1%nat).
Proof.
  intros Hlib. unfold get_axarray_fig_plt, do. rewrite !Hlib.
  destruct ax_array as [a|]; cbn [bind ret].
  - destruct (py_truthy squeeze) eqn:Hsq.
    + destruct (ravel a) as [|x [|y l]] eqn:Hr; cbn.
      * split; [intros _ (a' & [= <-] & _ & Hlen); by rewrite Hr in Hlen
               | intros _; by eexists].
      * split; [intros [v Hv]; discriminate Hv|].
        intros H. destruct H. exists a. by rewrite Hr.
      * split; [intros _ (a' & [= <-] & _ & Hlen); by rewrite Hr in Hlen
               | intros _; by eexists].
    + split; [intros _ (a' & _ & Hsq' & _); discriminate Hsq'
             | intros _; by eexists].
  - split; [intros _ (a' & Ha & _); discriminate Ha | intros _; by eexists].
Qed.

Lemma get_axarray_returns_iff_witness :
  returns (get_axarray_fig_plt no_raise
             (Some {| nd_shape := [2%nat]; nd_data := [0%nat; 1%nat] |})
             (PyNum (PyInt 1)) (PyNum (PyInt 1)) (PyBool false)
             (PyBool false) (PyBool true) PyNone PyNone ∅) ∧
  ¬ returns (get_axarray_fig_plt no_raise (Some single_axes)
               (PyNum (PyInt 1)) (PyNum (PyInt 1)) (PyBool false)
               (PyBool false) (PyBool true) PyNone PyNone ∅).
Proof.
  split.
  - apply get_axarray_returns_iff; [reflexivity|].
    intros (a & [= <-] & _ & Hlen). discriminate Hlen.
  - intros H. apply get_axarray_returns_iff in H; [|reflexivity].
    apply H. by exists single_axes.
Defined.

(** X13.  With an ax_array given, get_axarray_fig_plt creates nothing:
    it never calls plt.subplots, whatever the outcome; and when it returns,
    the figure is the current figure of the pyplot it imports and the array
    holds the Axes it was given, in their order: the array itself with
    squeeze off, the flattened array with squeeze on. *)
Theorem given_axes_array_kept lib_raises a nrows ncols sharex sharey squeeze
    subplot_kw gridspec_kw fig_kw :
  Forall (λ c, is_subplots c = false)
    (trace (get_axarray_fig_plt lib_raises (Some a) nrows ncols sharex
              sharey squeeze subplot_kw gridspec_kw fig_kw)) ∧
  ∀ r f p,
    outcome (get_axarray_fig_plt lib_raises (Some a) nrows ncols sharex
               sharey squeeze subplot_kw gridspec_kw fig_kw) =
      inr (r, f, p) →
    f = GcfOf ImportedPyplot ∧ p = ImportedPyplot ∧
    if py_truthy squeeze
    then r = AxRavel (nd_data a) ∧ length (nd_data a) ≠ 1%nat
    else r = AxGiven a.
Proof.
  unfold get_axarray_fig_plt, do, ravel.
  destruct (lib_raises (Import "matplotlib.pyplot"));
    [split; [by repeat constructor | intros ??? [=]]|].
  cbn [bind].
  destruct (lib_raises (Plt_gcf ImportedPyplot));
    [split; [by repeat constructor | intros ??? [=]]|].
  cbn [bind]. destruct (py_truthy squeeze).
  - destruct (nd_data a) as [|x [|y l]]; cbn;
      (split; [by repeat constructor|]); intros r f p [=]; by subst.
  - cbn. split; [by repeat constructor|]. intros r f p [=]. by subst.
Qed.

Lemma given_axes_array_kept_witness :
  outcome (get_axarray_fig_plt no_raise
             (Some {| nd_shape := [2%nat; 2%nat];
                      nd_data := [0%nat; 1%nat; 2%nat; 3%nat] |})
             (PyNum (PyInt 2)) (PyNum (PyInt 2)) (PyBool false)
             (PyBool false) (PyBool true) PyNone PyNone ∅) =
  inr (AxRavel [0%nat; 1%nat; 2%nat; 3%nat], GcfOf ImportedPyplot,
       ImportedPyplot).
Proof.
  destruct (get_axarray_fig_plt no_raise
              (Some {| nd_shape := [2%nat; 2%nat];
                       nd_data := [0%nat; 1%nat; 2%nat; 3%nat] |})
              (PyNum (PyInt 2)) (PyNum (PyInt 2)) (PyBool false)
              (PyBool false) (PyBool true) PyNone PyNone ∅)
    as [t [e|[[r f] p]]] eqn:E; [vm_compute in E; discriminate E|].
  pose proof (proj2 (given_axes_array_kept no_raise
                       {| nd_shape := [2%nat; 2%nat];
                          nd_data := [0%nat; 1%nat; 2%nat; 3%nat] |}
                       (PyNum (PyInt 2)) (PyNum (PyInt 2)) (PyBool false)
                       (PyBool false) (PyBool true) PyNone PyNone ∅)
                r f p) as H.
  rewrite E in H. destruct (H eq_refl) as (-> & -> & -> & _). reflexivity.
Defined.

(** X14.  Without an ax_array, get_axarray_fig_plt hands every argument to
    plt.subplots unchanged, squeeze and the figure keywords included, and
    never calls plt.gcf; with one, plt.subplots is not called at all.  So a
    plt.subplots call in a run is the call with the arguments of the run,
    made because no ax_array was given. *)
Theorem subplots_gets_the_arguments lib_raises ax_array nrows ncols sharex
    sharey squeeze subplot_kw gridspec_kw fig_kw c :
  c ∈ trace (get_axarray_fig_plt lib_raises ax_array nrows ncols sharex
               sharey squeeze subplot_kw gridspec_kw fig_kw) →
  (is_subplots c = true →
   ax_array = None ∧
   c = Plt_subplots nrows ncols sharex sharey squeeze subplot_kw
         gridspec_kw fig_kw) ∧
  (is_gcf c = true → ax_array ≠ None).
Proof.
  unfold get_axarray_fig_plt, do.
  destruct (lib_raises (Import "matplotlib.pyplot")).
  { cbn. intros ->%list_elem_of_singleton. by split. }
  cbn [bind]. destruct ax_array as [a|].
  - assert (∀ t : list call,
              t = [] → c ∈ [Import "matplotlib.pyplot"] ++
                           [Plt_gcf ImportedPyplot] ++ t →
              (is_subplots c = true →
               Some a = None ∧
               c = Plt_subplots nrows ncols sharex sharey squeeze subplot_kw
                     gridspec_kw fig_kw) ∧
              (is_gcf c = true → Some a ≠ None))
      as Hgen.
    { intros t -> Hc. cbn in Hc.
      apply elem_of_cons in Hc as [->|Hc]; [by split|].
      apply list_elem_of_singleton in Hc as ->. by split. }
    destruct (lib_raises (Plt_gcf ImportedPyplot)).
    { cbn. intros Hc. by apply (Hgen []). }
    cbn [bind]. destruct (py_truthy squeeze);
      [destruct (ravel a) as [|x [|y l]]|]; cbn; intros Hc;
      by apply (Hgen []).
  - destruct (lib_raises _); cbn; intros Hc;
      (apply elem_of_cons in Hc as [->|Hc]; [by split|]);
      apply list_elem_of_singleton in Hc as ->; by split.
Qed.

Lemma subplots_gets_the_arguments_witness :
  Plt_subplots (PyNum (PyInt 2)) (PyNum (PyInt 3)) (PyBool true)
    (PyBool false) (PyBool true) PyNone PyNone
    {[ "figsize" := PyNum (PyInt 8) ]} ∈
  trace (get_axarray_fig_plt no_raise None (PyNum (PyInt 2))
           (PyNum (PyInt 3)) (PyBool true) (PyBool false) (PyBool true)
           PyNone PyNone {[ "figsize" := PyNum (PyInt 8) ]}).
Proof.
  assert (∃ c, c ∈ trace (get_axarray_fig_plt no_raise None
                            (PyNum (PyInt 2)) (PyNum (PyInt 3))
                            (PyBool true) (PyBool false) (PyBool true)
                            PyNone PyNone {[ "figsize" := PyNum (PyInt 8) ]})
               ∧ is_subplots c = true) as (c & Hc & Hs).
  { eexists. split;
      [apply list_elem_of_further, list_elem_of_here | reflexivity]. }
  destruct (subplots_gets_the_arguments no_raise None (PyNum (PyInt 2))
              (PyNum (PyInt 3)) (PyBool true) (PyBool false) (PyBool true)
              PyNone PyNone {[ "figsize" := PyNum (PyInt 8) ]} c Hc)
    as [H _].
  destruct (H Hs) as [_ <-]. exact Hc.
Defined.

(** ** get_ax_fig_plt and get_ax3d_fig_plt *)

(** X15.  Given an Axes, both helpers create nothing, whatever the library
    does: no call to plt.figure, to fig.add_subplot or to Axes3D.  When
    their imports and plt.gcf() do not raise, they make these calls and no
    other and hand the Axes back, with the current figure of the pyplot
    they import; and they return nothing else, whatever the library
    does. *)
Theorem supplied_axes_kept ax_raises ax :
  ax ≠ PyNone →
  (Forall (λ c, creates c = false) (fst (get_ax_fig_plt ax_raises ax)) ∧
   (∀ r, snd (get_ax_fig_plt ax_raises ax) = inr r →
         r = (GivenAxes ax, CurrentFigure, ImportedPyplot)) ∧
   (ax_raises (Ax_import "matplotlib.pyplot") = None →
    ax_raises Ax_plt_gcf = None →
    get_ax_fig_plt ax_raises ax =
    ([Ax_import "matplotlib.pyplot"; Ax_plt_gcf],
     inr (GivenAxes ax, CurrentFigure, ImportedPyplot)))) ∧
  (Forall (λ c, creates c = false) (fst (get_ax3d_fig_plt ax_raises ax)) ∧
   (∀ r, snd (get_ax3d_fig_plt ax_raises ax) = inr r →
         r = (GivenAxes ax, CurrentFigure, ImportedPyplot)) ∧
   (ax_raises (Ax_import "matplotlib.pyplot") = None →
    ax_raises (Ax_import "mpl_toolkits.mplot3d") = None →
    ax_raises Ax_plt_gcf = None →
    get_ax3d_fig_plt ax_raises ax =
    ([Ax_import "matplotlib.pyplot"; Ax_import "mpl_toolkits.mplot3d";
      Ax_plt_gcf],
     inr (GivenAxes ax, CurrentFigure, ImportedPyplot)))).
Proof.
  intros Hax. assert (is_None ax = false) as HN by (by destruct ax).
  unfold get_ax_fig_plt, get_ax3d_fig_plt, ax_do. rewrite HN.
  destruct (ax_raises (Ax_import "matplotlib.pyplot")),
    (ax_raises (Ax_import "mpl_toolkits.mplot3d")),
    (ax_raises Ax_plt_gcf); cbn;
    repeat split; try (by repeat constructor); try done;
    intros r [=]; by subst.
Qed.

Lemma supplied_axes_kept_witness :
  get_ax_fig_plt (λ _, None) (PyFig 4) =
    ([Ax_import "matplotlib.pyplot"; Ax_plt_gcf],
     inr (GivenAxes (PyFig 4), CurrentFigure, ImportedPyplot)) ∧
  get_ax3d_fig_plt (λ _, None) (PyFig 4) =
    ([Ax_import "matplotlib.pyplot"; Ax_import "mpl_toolkits.mplot3d";
      Ax_plt_gcf],
     inr (GivenAxes (PyFig 4), CurrentFigure, ImportedPyplot)).
Proof.
  destruct (supplied_axes_kept (λ _, None) (PyFig 4) ltac:(discriminate))
    as [(_ & _ & H2) (_ & _ & H3)].
  split; [apply H2 | apply H3]; reflexivity.
Defined.

(** X16.  Without an Axes, get_ax_fig_plt creates one figure and then one
    subplot on it with the grid (1, 1, 1), and get_ax3d_fig_plt one figure
    and then one Axes3D on it.  When none of these calls raises, the run is
    exactly that sequence and returns the new Axes and the new figure.
    Whatever the library does, the calls of a run are an initial part of
    the sequence, so no Axes is made unless plt.figure() went through and
    plt.gcf() is never called, and a run returns only if it has made the
    whole sequence. *)
Theorem new_axes_on_new_figure ax_raises :
  ((ax_raises (Ax_import "matplotlib.pyplot") = None →
    ax_raises Ax_plt_figure = None →
    ax_raises (Ax_add_subplot 1 1 1) = None →
    get_ax_fig_plt ax_raises PyNone =
    ([Ax_import "matplotlib.pyplot"; Ax_plt_figure; Ax_add_subplot 1 1 1],
     inr (NewSubplot, NewFigure, ImportedPyplot))) ∧
   fst (get_ax_fig_plt ax_raises PyNone) `prefix_of`
     [Ax_import "matplotlib.pyplot"; Ax_plt_figure; Ax_add_subplot 1 1 1] ∧
   ((∃ r, snd (get_ax_fig_plt ax_raises PyNone) = inr r) ↔
    get_ax_fig_plt ax_raises PyNone =
    ([Ax_import "matplotlib.pyplot"; Ax_plt_figure; Ax_add_subplot 1 1 1],
     inr (NewSubplot, NewFigure, ImportedPyplot)))) ∧
  ((ax_raises (Ax_import "matplotlib.pyplot") = None →
    ax_raises (Ax_import "mpl_toolkits.mplot3d") = None →
    ax_raises Ax_plt_figure = None →
    ax_raises Ax_Axes3D = None →
    get_ax3d_fig_plt ax_raises PyNone =
    ([Ax_import "matplotlib.pyplot"; Ax_import "mpl_toolkits.mplot3d";
      Ax_plt_figure; Ax_Axes3D],
     inr (NewAxes3D, NewFigure, ImportedPyplot))) ∧
   fst (get_ax3d_fig_plt ax_raises PyNone) `prefix_of`
     [Ax_import "matplotlib.pyplot"; Ax_import "mpl_toolkits.mplot3d";
      Ax_plt_figure; Ax_Axes3D] ∧
   ((∃ r, snd (get_ax3d_fig_plt ax_raises PyNone) = inr r) ↔
    get_ax3d_fig_plt ax_raises PyNone =
    ([Ax_import "matplotlib.pyplot"; Ax_import "mpl_toolkits.mplot3d";
      Ax_plt_figure; Ax_Axes3D],
     inr (NewAxes3D, NewFigure, ImportedPyplot)))).
Proof.
  unfold get_ax_fig_plt, get_ax3d_fig_plt, ax_do. cbn [is_None].
  split.
  - destruct (ax_raises (Ax_import "matplotlib.pyplot"));
      [split; [done|];
       split; [by exists [Ax_plt_figure; Ax_add_subplot 1 1 1]
              | split; [intros [? [=]] | intros [=]]]|].
    destruct (ax_raises Ax_plt_figure);
      [split; [done|];
       split; [by exists [Ax_add_subplot 1 1 1]
              | split; [intros [? [=]] | intros [=]]]|].
    destruct (ax_raises (Ax_add_subplot 1 1 1));
      [split; [done|];
       split; [by exists [] | split; [intros [? [=]] | intros [=]]]|].
    split; [done|]. split; [by exists [] | split; [done | by eexists]].
  - destruct (ax_raises (Ax_import "matplotlib.pyplot"));
      [split; [done|];
       split; [by exists [Ax_import "mpl_toolkits.mplot3d"; Ax_plt_figure;
                          Ax_Axes3D]
              | split; [intros [? [=]] | intros [=]]]|].
    destruct (ax_raises (Ax_import "mpl_toolkits.mplot3d"));
      [split; [done|];
       split; [by exists [Ax_plt_figure; Ax_Axes3D]
              | split; [intros [? [=]] | intros [=]]]|].
    destruct (ax_raises Ax_plt_figure);
      [split; [done|];
       split; [by exists [Ax_Axes3D]
              | split; [intros [? [=]] | intros [=]]]|].
    destruct (ax_raises Ax_Axes3D);
      [split; [done|];
       split; [by exists [] | split; [intros [? [=]] | intros [=]]]|].
    split; [done|]. split; [by exists [] | split; [done | by eexists]].
Qed.

Lemma new_axes_on_new_figure_witness :
  get_ax_fig_plt (λ _, None) PyNone =
    ([Ax_import "matplotlib.pyplot"; Ax_plt_figure; Ax_add_subplot 1 1 1],
     inr (NewSubplot, NewFigure, ImportedPyplot)) ∧
  get_ax3d_fig_plt (λ _, None) PyNone =
    ([Ax_import "matplotlib.pyplot"; Ax_import "mpl_toolkits.mplot3d";
      Ax_plt_figure; Ax_Axes3D],
     inr (NewAxes3D, NewFigure, ImportedPyplot)).
Proof.
  destruct (new_axes_on_new_figure (λ _, None)) as [(H2 & _) (H3 & _)].
  split; [apply H2 | apply H3]; reflexivity.
Defined.

(** ** The docstring of a decorated function *)

Lemma string_app_assoc (s1 s2 s3 : string) :
  s1 +:+ s2 +:+ s3 = (s1 +:+ s2) +:+ s3.
Proof.
  induction s1 as [|c s1 IH]; [reflexivity|].
  change (String c (s1 +:+ s2 +:+ s3) = String c ((s1 +:+ s2) +:+ s3)).
  by rewrite IH.
Qed.

Lemma mentions_after (pre k s : string) :
  mentions k s → mentions k (pre +:+ s).
Proof.
  intros (a & b & ->). exists (pre +:+ a), b. by rewrite string_app_assoc.
Qed.

(** X17.  add_fig_kwargs keeps the docstring of the wrapped function and
    documents its own options: the docstring of the decorated function
    starts with the original one (if there is one), ends with the table of
    the keyword arguments, and names each of the five options the wrapper
    takes out of the keyword arguments. *)
Theorem decorated_doc_documents_options doc :
  (∀ d, doc = Some d → ∃ rest, decorated_doc doc = d +:+ rest) ∧
  (∃ pre, decorated_doc doc = pre +:+ options_doc) ∧
  ∀ k, k ∈ option_names → mentions k (decorated_doc doc).
Proof.
  split; [|split].
  - intros d ->. by eexists.
  - destruct doc as [d|]; cbn [decorated_doc].
    + exists (d +:+ newline). by rewrite string_app_assoc.
    + by exists "".
  - intros k Hk.
    assert (mentions k options_doc) as Hm.
    { unfold option_names in Hk.
      repeat (apply elem_of_cons in Hk as [->|Hk]);
        [ exists (String.substring 0 247 options_doc),
            (String.substring 252 718 options_doc)
        | exists (String.substring 0 442 options_doc),
            (String.substring 453 718 options_doc)
        | exists (String.substring 0 304 options_doc),
            (String.substring 308 718 options_doc)
        | exists (String.substring 0 367 options_doc),
            (String.substring 374 718 options_doc)
        | exists (String.substring 0 576 options_doc),
            (String.substring 588 718 options_doc)
        | by apply elem_of_nil in Hk ];
        vm_compute; reflexivity. }
    destruct doc as [d|]; cbn [decorated_doc]; [|exact Hm].
    by do 2 apply mentions_after.
Qed.

Lemma decorated_doc_documents_options_witness :
  (∃ rest, decorated_doc (Some "Plot the bands.") =
           "Plot the bands." +:+ rest) ∧
  mentions "savefig" (decorated_doc (Some "Plot the bands.")).
Proof.
  destruct (decorated_doc_documents_options (Some "Plot the bands."))
    as (Hpre & _ & Hm).
  split; [by apply Hpre|]. apply Hm.
  do 3 apply list_elem_of_further. apply list_elem_of_here.
Defined.
